(** * OpenGrokMCP: response normalisation and status handling

    A shallow embedding of the OpenGrok clients of the repository:
    - the html-scrape [OpenGrokClient] (web interface, regular expressions),
    - the [OpenGrokApiClient] (REST endpoints) and the rest-api
      [OpenGrokClient] facade built on it,
    - the [OpenGrokAuth] credential holder.

    Conventions of the embedding.
    - JavaScript strings are [string]s (one [ascii] per code unit; only the
      ASCII white space and digits are recognised by [\s], [\d] and [trim]).
    - A JavaScript [number] holding the result of [parseInt] is a [jsnum]:
      [NaN] or an exact integer (doubles are exact below 2^53).
    - [throw new Error(m)] is [Throw m]; [try { .. } catch (e) { .. }] is
      [try_catch]; [await client.get(..)] is [get], which asks the upstream for
      an outcome, applies axios' [validateStatus] and records the request.
    - [console.error] / [console.log] lines are diagnostics and are left out. *)

From Stdlib Require Import ZArith NArith String Ascii DecimalString DecimalN DecimalPos.
From stdpp Require Import gmap strings list.

Open Scope string_scope.
Open Scope list_scope.

(** ** JavaScript primitives *)
Module Js.

(** The value of [parseInt]: [NaN] or an integer. *)
Inductive jsnum : Type :=
| NaN
| Int (z : Z).

(** Truthiness of a string: only the empty string is falsy. *)
Definition truthy (s : string) : bool :=
  match s with
  | EmptyString => false
  | String _ _ => true
  end.

(** Truthiness of an optional string argument ([undefined] is falsy). *)
Definition truthy_opt (o : option string) : bool :=
  match o with
  | Some s => truthy s
  | None => false
  end.

(** Truthiness of a number: [NaN] and [0] are falsy. *)
Definition truthy_num (x : jsnum) : bool :=
  match x with
  | NaN => false
  | Int z => negb (z =? 0)%Z
  end.

(** [a || b] on strings, with [a] possibly [undefined]. *)
Definition or_else (o : option string) (d : string) : string :=
  match o with
  | Some s => if truthy s then s else d
  | None => d
  end.

(** [x || 0] on numbers. *)
Definition or_zero (x : jsnum) : jsnum :=
  if truthy_num x then x else Int 0.

(** White space of [\s] and [trim] (ASCII part): TAB, LF, VT, FF, CR, SP. *)
Definition isSpace (c : ascii) : bool :=
  let n := nat_of_ascii c in
  ((9 <=? n)%nat && (n <=? 13)%nat) || (n =? 32)%nat.

(** Line terminators, which [.] does not match (ASCII part): LF, CR. *)
Definition isLineTerminator (c : ascii) : bool :=
  let n := nat_of_ascii c in
  (n =? 10)%nat || (n =? 13)%nat.

(** [\d] *)
Definition isDigit (c : ascii) : bool :=
  let n := nat_of_ascii c in
  (48 <=? n)%nat && (n <=? 57)%nat.

Definition digitValue (c : ascii) : Z :=
  Z.of_nat (nat_of_ascii c - 48).

Fixpoint allChars (p : ascii -> bool) (s : string) : bool :=
  match s with
  | EmptyString => true
  | String c s' => p c && allChars p s'
  end.

Fixpoint trimStart (s : string) : string :=
  match s with
  | EmptyString => EmptyString
  | String c s' => if isSpace c then trimStart s' else s
  end.

Fixpoint trimEnd (s : string) : string :=
  match s with
  | EmptyString => EmptyString
  | String c s' =>
      match trimEnd s' with
      | EmptyString => if isSpace c then EmptyString else String c EmptyString
      | t => String c t
      end
  end.

(** [s.trim()] *)
Definition trim (s : string) : string := trimEnd (trimStart s).

(** [s.split(sep)] for a one-character separator. *)
Fixpoint split (sep : ascii) (s : string) : list string :=
  match s with
  | EmptyString => [EmptyString]
  | String c s' =>
      if Ascii.eqb c sep then EmptyString :: split sep s'
      else match split sep s' with
           | seg :: segs => String c seg :: segs
           | [] => [String c EmptyString]
           end
  end.

(** [parts.join(sep)] *)
Fixpoint join (sep : string) (parts : list string) : string :=
  match parts with
  | [] => EmptyString
  | [p] => p
  | p :: ps => p +:+ sep +:+ join sep ps
  end.

(** [n] characters dropped from the front. *)
Fixpoint drop (n : nat) (s : string) : string :=
  match n, s with
  | O, _ => s
  | S _, EmptyString => EmptyString
  | S k, String _ s' => drop k s'
  end.

(** [s.startsWith(lit)] *)
Fixpoint startsWith (lit s : string) : bool :=
  match lit with
  | EmptyString => true
  | String a lit' =>
      match s with
      | EmptyString => false
      | String b s' => Ascii.eqb a b && startsWith lit' s'
      end
  end.

(** The text before the first occurrence of [needle] and the text after it. *)
Fixpoint cut (needle s : string) : option (string * string) :=
  if startsWith needle s then Some (EmptyString, drop (String.length needle) s)
  else match s with
       | EmptyString => None
       | String c s' =>
           match cut needle s' with
           | Some (before, after) => Some (String c before, after)
           | None => None
           end
       end.

(** [s.includes(needle)] *)
Definition includes (needle s : string) : bool :=
  match cut needle s with
  | Some _ => true
  | None => false
  end.

(** [s.replace(/pat/g, rep)] for a literal, non-empty [pat]: scanning left to
    right, [skip] characters of a match just replaced remain to be passed. *)
Fixpoint replaceFrom (skip : nat) (pat rep s : string) : string :=
  match s with
  | EmptyString => EmptyString
  | String c s' =>
      match skip with
      | S k => replaceFrom k pat rep s'
      | O =>
          if startsWith pat s
          then rep +:+ replaceFrom (String.length pat - 1) pat rep s'
          else String c (replaceFrom 0 pat rep s')
      end
  end.

Definition replaceAll (pat rep s : string) : string := replaceFrom 0 pat rep s.

(** The digits at the front of [s], accumulated in base ten, and how many. *)
Fixpoint digitsPrefix (acc : Z) (count : nat) (s : string) : Z * nat :=
  match s with
  | EmptyString => (acc, count)
  | String c s' =>
      if isDigit c then digitsPrefix (10 * acc + digitValue c) (S count) s'
      else (acc, count)
  end.

(** [parseInt(s, 10)]: leading white space, an optional sign, then the longest
    run of digits; [NaN] when there is no digit. *)
Definition parseInt (s : string) : jsnum :=
  let t := trimStart s in
  let '(sign, body) :=
    match t with
    | String "-" r => ((-1)%Z, r)
    | String "+" r => (1%Z, r)
    | _ => (1%Z, t)
    end in
  match digitsPrefix 0 0 body with
  | (_, O) => NaN
  | (v, S _) => Int (sign * v)
  end.

(** Decimal rendering of a natural number, as in a template literal. *)
Definition showN (n : N) : string := NilZero.string_of_uint (N.to_uint n).

(** [String(x)] for a [jsnum]. *)
Definition show (x : jsnum) : string :=
  match x with
  | NaN => "NaN"
  | Int z => if (z <? 0)%Z then "-" +:+ showN (Z.abs_N z) else showN (Z.abs_N z)
  end.

(** [arr.slice(0, n)]: a negative [n] counts from the end. *)
Definition slice0 {A} (n : Z) (l : list A) : list A :=
  if (n <? 0)%Z then take (length l - Z.to_nat (- n)) l
  else take (Z.to_nat n) l.

(** The outcome of running code that may throw. *)
Inductive Result (A : Type) : Type :=
| Return (a : A)
| Throw (message : string).

Arguments Return {A} a.
Arguments Throw {A} message.

End Js.

Import Js.

(** The double quote character, for patterns that contain it. *)
Definition dq : ascii := ascii_of_nat 34.

(** [s] between double quotes. *)
Definition quoted (s : string) : string := String dq (s +:+ String dq EmptyString).

(** ** The cookie jar held by the credential holder *)
Module CookieJar.

(** Modelled from the spec: the jar type (tough-cookie's [CookieJar]) is a
    dependency that is not part of the sources. The credential set is "an
    ordered collection of (name, value) cookie pairs, scoped to one base
    origin"; a segment "that fails to parse is skipped"; serialisation lists
    "all currently held cookies for the configured origin" as [name=value].
    Every call of the holder passes the same origin, so the jar is modelled
    for that single origin: cookies in creation order, one per name. *)
Record Cookie : Type := { key : string; value : string }.

Definition t : Type := list Cookie.

Definition empty : t := [].

(** A [name=value] pair: a segment without [=], or with nothing before it,
    does not parse. *)
Definition parse (str : string) : option Cookie :=
  match cut "=" (trim str) with
  | Some (name, val) =>
      if truthy name then Some {| key := trim name; value := trim val |}
      else None
  | None => None
  end.

(** A cookie of the same name is replaced in place, a new one is appended. *)
Fixpoint put (c : Cookie) (jar : t) : t :=
  match jar with
  | [] => [c]
  | c' :: jar' =>
      if String.eqb (key c') (key c) then c :: jar' else c' :: put c jar'
  end.

Definition setCookieSync (str : string) (jar : t) : Result t :=
  match parse str with
  | Some c => Return (put c jar)
  | None => Throw "Cookie failed to parse"
  end.

Definition getCookiesSync (jar : t) : list Cookie := jar.

Definition cookieString (c : Cookie) : string := key c +:+ "=" +:+ value c.

End CookieJar.

(** ** The HTTP client (axios) and the upstream *)
Module Http.

Record Request : Type := {
  url : string;
  params : list (string * string)
}.

Record Response (D : Type) : Type := {
  status : N;
  data : D
}.

Arguments status {D} _.
Arguments data {D} _.

(** What one network call meets: a response with some status, or a transport
    failure (time-out, connection refused, DNS) with its message. *)
Inductive Outcome (D : Type) : Type :=
| Replied (r : Response D)
| Failed (reason : string).

Arguments Replied {D} r.
Arguments Failed {D} reason.

(** The upstream answers a request knowing the requests made before it. *)
Definition Upstream (D : Type) : Type := list Request -> Request -> Outcome D.

(** The options given to [axios.create]. *)
Record AxiosConfig : Type := {
  baseURL : string;
  timeout : option N;
  headers : list (string * string);
  validateStatus : N -> bool;
  withCredentials : bool;
  maxRedirects : option N;
  auth : option (string * string);
  jar : option CookieJar.t
}.

(** A computation that talks to the upstream: it reads the upstream, extends
    the log of requests made so far, and returns or throws. *)
Definition Net (D A : Type) : Type :=
  Upstream D -> list Request -> Result A * list Request.

Definition ret {D A} (a : A) : Net D A :=
  fun _ log => (Return a, log).

Definition throw {D A} (message : string) : Net D A :=
  fun _ log => (Throw message, log).

Definition bind {D A B} (m : Net D A) (k : A -> Net D B) : Net D B :=
  fun up log =>
    match m up log with
    | (Return a, log') => k a up log'
    | (Throw e, log') => (Throw e, log')
    end.

(** [try { body } catch (error) { handler(error.message) }] *)
Definition try_catch {D A} (body : Net D A) (handler : string -> Net D A) : Net D A :=
  fun up log =>
    match body up log with
    | (Return a, log') => (Return a, log')
    | (Throw e, log') => handler e up log'
    end.

(** [await client.get(url, { params })]: the request is made; a transport
    failure throws, and so does a status that [validateStatus] rejects. *)
Definition get {D} (cfg : AxiosConfig) (req : Request) : Net D (Response D) :=
  fun up log =>
    match up log req with
    | Failed reason => (Throw reason, log ++ [req])
    | Replied r =>
        if validateStatus cfg (status r) then (Return r, log ++ [req])
        else (Throw ("Request failed with status code " +:+ showN (status r)),
              log ++ [req])
    end.

(** Running a computation against an upstream, from an empty log. *)
Definition run {D A} (m : Net D A) (up : Upstream D) : Result A * list Request :=
  m up [].

(** [baseUrl.replace(/\/$/, '')]: one trailing slash removed. *)
Fixpoint stripTrailingSlash (s : string) : string :=
  match s with
  | EmptyString => EmptyString
  | String c s' =>
      match s' with
      | EmptyString => if Ascii.eqb c "/" then EmptyString else s
      | _ => String c (stripTrailingSlash s')
      end
  end.

End Http.

Import Http.

Notation "'let*' x ':=' m 'in' k" := (Http.bind m (fun x => k))
  (at level 10, x name, m at level 100, k at level 200).

(** ** Result shapes shared by the two clients *)
Module SearchResult.
Record t : Type := { path : string; line : jsnum; snippet : string; project : string }.
End SearchResult.

Module FileContent.
Record t : Type := { path : string; content : string; project : string }.
End FileContent.

Inductive RefKind : Type :=
| definition
| reference.

Module CrossReference.
Record t : Type := { symbol : string; file : string; line : jsnum; type : RefKind }.
End CrossReference.

Inductive SearchType : Type :=
| full
| defs
| refs
| path
| hist.

(** [status === 401 || status === 403] *)
Definition isAuthStatus (status : N) : bool :=
  (status =? 401)%N || (status =? 403)%N.

(** ** The html-scrape client: [OpenGrokClient] over the web interface *)
Module Html.

Record OpenGrokClient : Type := {
  client : AxiosConfig;
  baseUrl : string
}.

(** The constructor: the cookie jar when there is one, basic auth when both
    user name and password are given. *)
Definition new (baseUrl : string) (cookieJar : option CookieJar.t)
    (username password : option string) : OpenGrokClient :=
  let base := stripTrailingSlash baseUrl in
  let config := {|
    baseURL := base;
    timeout := Some 30000%N;
    headers :=
      [("Accept", "text/html,application/xhtml+xml,application/xml;q=0.9,image/webp,*/*;q=0.8");
       ("User-Agent", "Mozilla/5.0 (Windows NT 10.0; Win64; x64) AppleWebKit/537.36")];
    validateStatus := fun _ => true;
    withCredentials := true;
    maxRedirects := None;
    auth := None;
    jar := None |} in
  match cookieJar with
  | Some j =>
      {| client := {| baseURL := baseURL config; timeout := timeout config;
                      headers := headers config;
                      validateStatus := validateStatus config;
                      withCredentials := withCredentials config;
                      maxRedirects := maxRedirects config;
                      auth := None; jar := Some j |};
         baseUrl := base |}
  | None =>
      {| client := {| baseURL := baseURL config; timeout := timeout config;
                      headers := headers config;
                      validateStatus := validateStatus config;
                      withCredentials := withCredentials config;
                      maxRedirects := maxRedirects config;
                      auth := match username, password with
                              | Some u, Some p =>
                                  if truthy u && truthy p then Some (u, p) else None
                              | _, _ => None
                              end;
                      jar := None |};
         baseUrl := base |}
  end.

(** *** The search-result pattern

    The pattern of [parseSearchResults], with Q for the double quote:
    [<a], [\s+], [class=QsQ], [\s+], [href=Q/xref/], a lazy non-empty group of
    characters other than Q (the path), [#], a group of one or more digits
    (the line), Q, any characters other than [>], [>], a lazy group of
    characters other than line terminators (the snippet), and the closing tag
    of the anchor.

    Matching at one position is deterministic: each [\s+] takes all the white
    space there is (what follows is not white space); the text between
    [/xref/] and the next Q must be a non-empty path, [#] and a non-empty run
    of digits reaching that Q, the lazy path being the shortest one; the
    attributes end at the next [>]; the lazy snippet ends at the next closing
    tag and holds no line terminator. *)

(** A literal at the front of [s]; what follows it. *)
Definition expect (lit s : string) : option string :=
  if startsWith lit s then Some (drop (String.length lit) s) else None.

(** [\s+] *)
Definition spaces1 (s : string) : option string :=
  match s with
  | String c s' => if isSpace c then Some (trimStart s') else None
  | EmptyString => None
  end.

(** Path, [#] and digits against the whole of [t], the text before the quote:
    the shortest non-empty path that is followed by [#] and digits only. *)
Fixpoint pathAndLine (t : string) : option (string * string) :=
  match t with
  | EmptyString => None
  | String c t' =>
      let longer :=
        match pathAndLine t' with
        | Some (p, d) => Some (String c p, d)
        | None => None
        end in
      match t' with
      | String "#" d =>
          if truthy d && allChars isDigit d then Some (String c EmptyString, d)
          else longer
      | _ => longer
      end
  end.

(** The groups of one match. *)
Record Match : Type := { group1 : string; group2 : string; group3 : string }.

(** The pattern at the front of [s]: the groups and the text after the match. *)
Definition matchHere (s : string) : option (Match * string) :=
  r0 ← expect "<a" s;
  r1 ← spaces1 r0;
  r2 ← expect ("class=" +:+ quoted "s") r1;
  r3 ← spaces1 r2;
  r4 ← expect ("href=" +:+ String dq "/xref/") r3;
  '(target, r5) ← cut (String dq EmptyString) r4;
  '(filePath, digits) ← pathAndLine target;
  '(_, r6) ← cut ">" r5;
  '(inner, r7) ← cut "</a>" r6;
  if allChars (fun c => negb (isLineTerminator c)) inner
  then Some ({| group1 := filePath; group2 := digits; group3 := inner |}, r7)
  else None.

(** The successive results of [resultPattern.exec(html)]: the pattern is tried
    at each position in turn; after a match the scan resumes behind it
    ([skip] characters of the match remain to be passed). *)
Fixpoint execAll (skip : nat) (html : string) : list Match :=
  match html with
  | EmptyString => []
  | String _ html' =>
      match skip with
      | S k => execAll k html'
      | O =>
          match matchHere html with
          | Some (m, rest) =>
              m :: execAll (String.length html - String.length rest - 1) html'
          | None => execAll 0 html'
          end
      end
  end.

(** The body of the [while] loop of [parseSearchResults]. *)
Definition addMatch (project : option string)
    (st : gset string * list SearchResult.t) (m : Match)
    : gset string * list SearchResult.t :=
  let '(seen, results) := st in
  let filePath := group1 m in
  let line := or_zero (parseInt (group2 m)) in
  let fullSnippet := group3 m in
  let key := filePath +:+ ":" +:+ show line in
  if decide (key ∈ seen) then (seen, results)
  else ({[ key ]} ∪ seen,
        results ++ [ {| SearchResult.path := filePath;
                        SearchResult.line := line;
                        SearchResult.snippet := fullSnippet;
                        SearchResult.project := or_else project "unknown" |} ]).

Definition parseSearchResults (html : string) (project : option string)
    : list SearchResult.t :=
  snd (foldl (addMatch project) (∅, []) (execAll 0 html)).

(** *** File content

    The pattern of [extractFileContent]: [<pre], any characters other than
    [>], [>], a lazy group of any characters, and the closing [pre] tag. It
    matches at the first [<pre], ends the opening tag at the next [>] and the
    group at the next closing tag. A later start cannot match when the first
    does not, since what it needs lies after the first start too. *)
Definition matchPre (html : string) : option string :=
  '(_, r1) ← cut "<pre" html;
  '(_, r2) ← cut ">" r1;
  '(inner, _) ← cut "</pre>" r2;
  Some inner.

(** The position of the first [c] in [s]. *)
Fixpoint indexOfChar (c : ascii) (s : string) : option nat :=
  match s with
  | EmptyString => None
  | String c' s' => if Ascii.eqb c' c then Some 0 else S <$> indexOfChar c s'
  end.

(** The tag stripping of [extractFileContent] (every match of: [<], one or
    more characters other than [>], [>], replaced by nothing): a [<] followed
    by at least one character and then the next [>] is removed with them; a
    [<] without them is kept. *)
Fixpoint stripTagsFrom (skip : nat) (s : string) : string :=
  match s with
  | EmptyString => EmptyString
  | String c s' =>
      match skip with
      | S k => stripTagsFrom k s'
      | O =>
          if Ascii.eqb c "<" then
            match indexOfChar ">" s' with
            | Some (S n) => stripTagsFrom (S (S n)) s'
            | _ => String c (stripTagsFrom 0 s')
            end
          else String c (stripTagsFrom 0 s')
      end
  end.

Definition stripTags (s : string) : string := stripTagsFrom 0 s.

Definition extractFileContent (html : string) : string :=
  match matchPre html with
  | Some inner =>
      trim (replaceAll "&amp;" "&"
             (replaceAll "&gt;" ">"
               (replaceAll "&lt;" "<"
                 (stripTags inner))))
  | None => "File content could not be extracted"
  end.

(** *** Operations *)

Definition search (self : OpenGrokClient) (query project : string)
    (searchType : option SearchType) (language : option string)
    (maxResults : option Z) : Net string (list SearchResult.t) :=
  let searchType := default full searchType in
  let maxResults := default 50%Z maxResults in
  if negb (truthy project) then
    throw "Project is required for OpenGrok search. Please specify a project."
  else
    try_catch
      (let params :=
         [("project", project); ("xrd", ""); ("nn", "1")]
         ++ [(match searchType with
              | defs => "defs"
              | refs => "refs"
              | path => "path"
              | hist => "hist"
              | full => "full"
              end, query)]
         ++ [("type", or_else language "")] in
       let* response := get (client self) {| url := "/search"; params := params |} in
       if isAuthStatus (status response) then
         throw ("Authentication failed (" +:+ showN (status response)
                +:+ "). Your session cookies have expired. See console for instructions.")
       else if negb (status response =? 200)%N then
         throw ("OpenGrok search failed with status " +:+ showN (status response))
       else
         let results := parseSearchResults (data response) (Some project) in
         ret (slice0 maxResults results))
      (fun message => throw ("OpenGrok search failed: " +:+ message)).

Definition getFileContent (self : OpenGrokClient) (path : string)
    (project : option string) : Net string FileContent.t :=
  try_catch
    (let* first := get (client self) {| url := "/xref/" +:+ path; params := [] |} in
     let* response :=
       if (status first =? 404)%N && truthy_opt project then
         get (client self)
             {| url := "/xref/" +:+ or_else project "" +:+ "/" +:+ path; params := [] |}
       else ret first in
     if isAuthStatus (status response) then
       throw ("Authentication failed (" +:+ showN (status response)
              +:+ "). Update OPENGROK_COOKIES.")
     else if negb (status response =? 200)%N then
       throw ("Failed to get file: " +:+ showN (status response)
              +:+ ". Tip: Omit the 'project' parameter and use the full path from search results (e.g., 'ProjectName/path/to/file').")
     else
       ret {| FileContent.path := path;
              FileContent.content := extractFileContent (data response);
              FileContent.project := or_else project "" |})
    (fun message => throw ("Failed to get file content: " +:+ message)).

Definition getCrossReferences (self : OpenGrokClient) (symbol : string)
    (project : option string) : Net string (list CrossReference.t) :=
  try_catch
    (let params :=
       [("q", "definitions:" +:+ symbol)]
       ++ (if truthy_opt project then [("project", or_else project "")] else []) in
     let* response := get (client self) {| url := "/search"; params := params |} in
     if isAuthStatus (status response) then
       throw ("Authentication failed (" +:+ showN (status response)
              +:+ "). Update OPENGROK_COOKIES.")
     else
       let searchResults := parseSearchResults (data response) project in
       ret (map (fun r => {| CrossReference.symbol := symbol;
                             CrossReference.file := SearchResult.path r;
                             CrossReference.line := SearchResult.line r;
                             CrossReference.type := definition |})
                searchResults))
    (fun message => throw ("Failed to get cross-references: " +:+ message)).

(** The scan of the project list for [option] elements is kept as a
    parameter of [listProjects]: nothing below depends on how it is done. *)
Section ListProjects.

Variable parseProjects : string -> list string.

Definition listProjects (self : OpenGrokClient) : Net string (list string) :=
  try_catch
    (let* response := get (client self) {| url := "/"; params := [] |} in
     if isAuthStatus (status response) then
       throw ("Authentication failed (" +:+ showN (status response)
              +:+ "). Update OPENGROK_COOKIES.")
     else if negb (status response =? 200)%N then
       throw ("OpenGrok API error: " +:+ showN (status response))
     else ret (parseProjects (data response)))
    (fun message => throw ("Failed to list projects: " +:+ message)).

End ListProjects.

End Html.

(** ** The REST client: [OpenGrokApiClient] *)
Module Api.

(** One per-line hit of a search response. *)
Record Hit : Type := { line : string; lineNumber : string; tag : string }.

(** [results] maps file paths to hits; it is held as the list of entries
    that [Object.entries] enumerates (one entry per key). *)
Record SearchResponse : Type := {
  time : N;
  resultCount : N;
  startDocument : N;
  endDocument : N;
  results : list (string * list Hit)
}.

Record SuggesterResponse (S : Type) : Type := {
  suggesterTime : N;
  suggestions : list S;
  identifier : string;
  queryText : string;
  partialResult : bool
}.

Arguments suggestions {S} _.

Record OpenGrokApiClient : Type := {
  client : AxiosConfig;
  baseUrl : string
}.

Definition new (baseUrl : string) (cookieJar : option CookieJar.t)
    (username password : option string) : OpenGrokApiClient :=
  let base := stripTrailingSlash baseUrl in
  let validate := fun status : N => (200 <=? status)%N && (status <? 500)%N in
  let heads :=
    [("Accept", "application/json");
     ("Content-Type", "application/json");
     ("User-Agent", "Mozilla/5.0 (compatible; OpenGrokMCP/1.0)")] in
  {| client :=
       {| baseURL := base +:+ "/api/v1";
          timeout := Some 30000%N;
          headers := heads;
          validateStatus := validate;
          withCredentials := false;
          maxRedirects := None;
          auth := match cookieJar, username, password with
                  | None, Some u, Some p =>
                      if truthy u && truthy p then Some (u, p) else None
                  | _, _, _ => None
                  end;
          jar := cookieJar |};
     baseUrl := base |}.

(** The body shared by the operations that inspect the status for an
    authentication failure: 401 or 403 throws the authentication message,
    any other status than 200 throws [what: status], and whatever is
    thrown is rethrown behind [what]. *)
Definition guarded {D} (self : OpenGrokApiClient) (what : string) (req : Request)
    : Net D D :=
  try_catch
    (let* response := get (client self) req in
     if isAuthStatus (status response) then
       throw ("Authentication failed (" +:+ showN (status response)
              +:+ "). Update OPENGROK_COOKIES.")
     else if negb (status response =? 200)%N then
       throw (what +:+ ": " +:+ showN (status response))
     else ret (data response))
    (fun message => throw (what +:+ ": " +:+ message)).

(** The body of the operations that only compare the status with 200. *)
Definition plain {D} (self : OpenGrokApiClient) (failure what : string) (req : Request)
    : Net D D :=
  try_catch
    (let* response := get (client self) req in
     if negb (status response =? 200)%N then
       throw (failure +:+ showN (status response))
     else ret (data response))
    (fun message => throw (what +:+ ": " +:+ message)).

Definition getAnnotation {D} (self : OpenGrokApiClient) (path : string) : Net D D :=
  guarded self "Failed to get annotation"
    {| url := "/annotation"; params := [("path", path)] |}.

Definition getFileContent {D} (self : OpenGrokApiClient) (path : string) : Net D D :=
  guarded self "Failed to get file content"
    {| url := "/file/content"; params := [("path", path)] |}.

Definition getFileGenre {D} (self : OpenGrokApiClient) (path : string) : Net D D :=
  guarded self "Failed to get file genre"
    {| url := "/file/genre"; params := [("path", path)] |}.

Definition getFileDefinitions {D} (self : OpenGrokApiClient) (path : string) : Net D D :=
  guarded self "Failed to get file definitions"
    {| url := "/file/defs"; params := [("path", path)] |}.

Definition getHistory {D} (self : OpenGrokApiClient) (path : string)
    (withFiles : option bool) (start max : option Z) : Net D D :=
  guarded self "Failed to get history"
    {| url := "/history";
       params :=
         [("path", path)]
         ++ match withFiles with
            | Some b => [("withFiles", if b then "true" else "false")]
            | None => []
            end
         ++ match start with Some n => [("start", show (Int n))] | None => [] end
         ++ match max with Some n => [("max", show (Int n))] | None => [] end |}.

Definition getDirectoryListing {D} (self : OpenGrokApiClient) (path : string) : Net D D :=
  guarded self "Failed to get directory listing"
    {| url := "/list"; params := [("path", path)] |}.

Definition getLastIndexTime {D} (self : OpenGrokApiClient) : Net D D :=
  guarded self "Failed to get last index time"
    {| url := "/system/indextime"; params := [] |}.

Definition getVersion {D} (self : OpenGrokApiClient) : Net D D :=
  plain self "Failed to get version: " "Failed to get version"
    {| url := "/system/version"; params := [] |}.

Definition ping {D} (self : OpenGrokApiClient) : Net D bool :=
  try_catch
    (let* response := get (client self) {| url := "/system/ping"; params := [] |} in
     ret (status response =? 200)%N)
    (fun _ => ret false).

Definition getProjects {D} (self : OpenGrokApiClient) : Net D D :=
  guarded self "Failed to get projects" {| url := "/projects"; params := [] |}.

Definition getProjectIndexedFiles {D} (self : OpenGrokApiClient) (projectName : string)
    : Net D D :=
  guarded self "Failed to get project indexed files"
    {| url := "/projects/" +:+ projectName +:+ "/files"; params := [] |}.

Definition getProjectRepositories {D} (self : OpenGrokApiClient) (projectName : string)
    : Net D D :=
  guarded self "Failed to get project repositories"
    {| url := "/projects/" +:+ projectName +:+ "/repositories"; params := [] |}.

Definition getProjectRepositoryTypes {D} (self : OpenGrokApiClient) (projectName : string)
    : Net D D :=
  guarded self "Failed to get project repository types"
    {| url := "/projects/" +:+ projectName +:+ "/repositories/type"; params := [] |}.

Definition getIndexedProjects {D} (self : OpenGrokApiClient) : Net D D :=
  guarded self "Failed to get indexed projects"
    {| url := "/projects/indexed"; params := [] |}.

(** A query parameter that is set only when its argument is defined. *)
Definition param (name : string) (arg : option string) : list (string * string) :=
  match arg with
  | Some v => [(name, v)]
  | None => []
  end.

Definition search (self : OpenGrokApiClient)
    (full def symbol path hist type projects maxResults start sort : option string)
    : Net SearchResponse SearchResponse :=
  plain self "Search failed with status " "Search failed"
    {| url := "/search";
       params :=
         param "full" full ++ param "def" def ++ param "symbol" symbol
         ++ param "path" path ++ param "hist" hist ++ param "type" type
         ++ param "projects" projects ++ param "maxresults" maxResults
         ++ param "start" start ++ param "sort" sort |}.

Definition getSuggestions {S} (self : OpenGrokApiClient)
    (projects field caret full defs refs path hist type : option string)
    : Net (SuggesterResponse S) (SuggesterResponse S) :=
  plain self "Get suggestions failed with status " "Get suggestions failed"
    {| url := "/suggest";
       params :=
         param "projects" projects ++ param "field" field ++ param "caret" caret
         ++ param "full" full ++ param "defs" defs ++ param "refs" refs
         ++ param "path" path ++ param "hist" hist ++ param "type" type |}.

End Api.

(** ** The rest-api client: [OpenGrokClient] over [OpenGrokApiClient] *)
Module Rest.

Record OpenGrokClient : Type := {
  apiClient : Api.OpenGrokApiClient;
  baseUrl : string
}.

Definition new (baseUrl : string) (cookieJar : option CookieJar.t)
    (username password : option string) : OpenGrokClient :=
  let base := stripTrailingSlash baseUrl in
  {| apiClient := Api.new base cookieJar username password; baseUrl := base |}.

(** [try { return await call } catch (error) { throw what: message }] *)
Definition delegate {D A} (what : string) (call : Net D A) : Net D A :=
  try_catch call (fun message => throw (what +:+ ": " +:+ message)).

(** The inner loop of [transformSearchResults]: the hits of one file. *)
Definition pushHit (project filePath : string) (results : list SearchResult.t)
    (hit : Api.Hit) : list SearchResult.t :=
  if truthy (Api.lineNumber hit) && truthy (Api.line hit) then
    let lineNumber :=
      if truthy (Api.lineNumber hit) then parseInt (Api.lineNumber hit) else Int 0 in
    results ++ [ {| SearchResult.path := filePath;
                    SearchResult.line := lineNumber;
                    SearchResult.snippet := Api.line hit;
                    SearchResult.project := or_else (Some project) "unknown" |} ]
  else results.

Definition transformSearchResults (apiResponse : Api.SearchResponse) (project : string)
    : list SearchResult.t :=
  foldl (fun results '(filePath, hits) => foldl (pushHit project filePath) results hits)
        [] (Api.results apiResponse).

Definition search (self : OpenGrokClient) (query project : string)
    (searchType : option SearchType) (language : option string)
    (maxResults : option Z) : Net Api.SearchResponse (list SearchResult.t) :=
  let searchType := default full searchType in
  let maxResults := default 50%Z maxResults in
  if negb (truthy project) then
    throw "Project is required for OpenGrok search. Please specify a project."
  else
    delegate "OpenGrok search failed"
      (let pick := fun t : SearchType =>
         match searchType, t with
         | defs, defs | refs, refs | path, path | hist, hist | full, full => Some query
         | _, _ => None
         end in
       let type := if truthy_opt language then language else None in
       let* response :=
         Api.search (apiClient self) (pick full) (pick defs) (pick refs) (pick path)
                    (pick hist) type (Some project) (Some (show (Int maxResults)))
                    None None in
       ret (slice0 maxResults (transformSearchResults response project))).

Definition getFileContent (self : OpenGrokClient) (path : string)
    (project : option string) : Net string FileContent.t :=
  delegate "Failed to get file content"
    (let* content := Api.getFileContent (apiClient self) path in
     ret {| FileContent.path := path;
            FileContent.content := content;
            FileContent.project := or_else project "" |}).

(** The loop body of [getCrossReferences]. *)
Definition pushRef (symbol filePath : string) (refs : list CrossReference.t)
    (hit : Api.Hit) : list CrossReference.t :=
  if truthy (Api.lineNumber hit) then
    let line :=
      if truthy (Api.lineNumber hit) then parseInt (Api.lineNumber hit) else Int 0 in
    refs ++ [ {| CrossReference.symbol := symbol;
                 CrossReference.file := filePath;
                 CrossReference.line := line;
                 CrossReference.type := reference |} ]
  else refs.

Definition getCrossReferences (self : OpenGrokClient) (symbol : string)
    (project : option string) : Net Api.SearchResponse (list CrossReference.t) :=
  delegate "Failed to get cross-references"
    (let* response :=
       Api.search (apiClient self) None None (Some symbol) None None None project
                  None None None in
     ret (foldl (fun refs '(filePath, hits) => foldl (pushRef symbol filePath) refs hits)
                [] (Api.results response))).

Definition listProjects {D} (self : OpenGrokClient) : Net D D :=
  delegate "Failed to list projects" (Api.getProjects (apiClient self)).

Definition getAnnotation {D} (self : OpenGrokClient) (path : string) : Net D D :=
  delegate "Failed to get annotation" (Api.getAnnotation (apiClient self) path).

Definition getDirectoryListing {D} (self : OpenGrokClient) (path : string) : Net D D :=
  delegate "Failed to get directory listing"
    (Api.getDirectoryListing (apiClient self) path).

Definition getHistory {D} (self : OpenGrokClient) (path : string)
    (withFiles : option bool) (start max : option Z) : Net D D :=
  delegate "Failed to get history"
    (Api.getHistory (apiClient self) path withFiles start max).

Definition getFileDefinitions {D} (self : OpenGrokClient) (path : string) : Net D D :=
  delegate "Failed to get file definitions"
    (Api.getFileDefinitions (apiClient self) path).

Definition getFileGenre {D} (self : OpenGrokClient) (path : string) : Net D D :=
  delegate "Failed to get file genre" (Api.getFileGenre (apiClient self) path).

Definition ping {D} (self : OpenGrokClient) : Net D bool :=
  try_catch (Api.ping (apiClient self)) (fun _ => ret false).

Definition getIndexedProjects {D} (self : OpenGrokClient) : Net D D :=
  delegate "Failed to get indexed projects" (Api.getIndexedProjects (apiClient self)).

Definition getProjectRepositories {D} (self : OpenGrokClient) (project : string)
    : Net D D :=
  delegate "Failed to get project repositories"
    (Api.getProjectRepositories (apiClient self) project).

Definition getProjectRepositoryTypes {D} (self : OpenGrokClient) (project : string)
    : Net D D :=
  delegate "Failed to get project repository types"
    (Api.getProjectRepositoryTypes (apiClient self) project).

Definition getProjectIndexedFiles {D} (self : OpenGrokClient) (project : string)
    : Net D D :=
  delegate "Failed to get project indexed files"
    (Api.getProjectIndexedFiles (apiClient self) project).

Definition getSuggestions {S} (self : OpenGrokClient) (query : string)
    (project field : option string) : Net (Api.SuggesterResponse S) (list S) :=
  let field := default "full" field in
  delegate "Failed to get suggestions"
    (let projects := if truthy_opt project then project else None in
     let* response :=
       Api.getSuggestions (apiClient self) projects (Some field) None (Some query)
                          (Some query) (Some query) (Some query) (Some query) None in
     ret (Api.suggestions response)).

Definition getLastIndexTime {D} (self : OpenGrokClient) : Net D D :=
  delegate "Failed to get last index time" (Api.getLastIndexTime (apiClient self)).

Definition getVersion {D} (self : OpenGrokClient) : Net D D :=
  delegate "Failed to get version" (Api.getVersion (apiClient self)).

End Rest.

(** ** The credential holder: [OpenGrokAuth] *)
Module Auth.

Record OpenGrokAuth : Type := {
  cookieJar : CookieJar.t;
  axiosClient : AxiosConfig;
  baseUrl : string
}.

(** The loop of [loadCookiesFromString]: a segment that the jar refuses is
    logged and skipped. *)
Definition loadCookie (jar : CookieJar.t) (cookie : string) : CookieJar.t :=
  match CookieJar.setCookieSync (trim cookie) jar with
  | Return jar' => jar'
  | Throw _ => jar
  end.

(** The holder and its HTTP client share one jar: both see the cookies set. *)
Definition withJar (cfg : AxiosConfig) (j : CookieJar.t) : AxiosConfig :=
  {| baseURL := baseURL cfg; timeout := timeout cfg; headers := headers cfg;
     validateStatus := validateStatus cfg; withCredentials := withCredentials cfg;
     maxRedirects := maxRedirects cfg; auth := auth cfg; jar := Some j |}.

Definition loadCookiesFromString (self : OpenGrokAuth) (cookieString : string)
    : OpenGrokAuth :=
  let cookies := split ";" cookieString in
  let filled := foldl loadCookie (cookieJar self) cookies in
  {| cookieJar := filled;
     axiosClient := withJar (axiosClient self) filled;
     baseUrl := baseUrl self |}.

Definition new (baseUrl : string) (cookieString : option string) : OpenGrokAuth :=
  let fresh :=
    {| cookieJar := CookieJar.empty;
       axiosClient :=
         {| baseURL := EmptyString;
            timeout := None;
            headers := [];
            validateStatus := fun _ => true;
            withCredentials := true;
            maxRedirects := Some 10%N;
            auth := None;
            jar := Some CookieJar.empty |};
       baseUrl := baseUrl |} in
  match cookieString with
  | Some s => if truthy s then loadCookiesFromString fresh s else fresh
  | None => fresh
  end.

Definition getCookieString (self : OpenGrokAuth) : string :=
  let cookies := CookieJar.getCookiesSync (cookieJar self) in
  join "; " (map CookieJar.cookieString cookies).

End Auth.


(** ** The project list of the html-scrape client *)
Module HtmlProjects.

(** The pattern of [parseProjects], with Q for the double quote: [<option],
    any characters other than [>], [value=Q], a group of characters other
    than Q (the value), Q, any characters other than [>], [>], a group of
    characters other than [<] (the label), and the closing [option] tag.

    Only the first run of characters has a choice: it is greedy, so of the
    places before the next [>] where [value=Q] stands, the rightmost at which
    the rest of the pattern matches is taken. The rest is deterministic: the
    value ends at the next Q, the opening tag at the next [>] after it, and the
    label at the next [<], where the closing tag must stand. *)

(** What must follow [value=Q]: the two groups and the text after the match. *)
Definition afterValue (r1 : string) : option (string * string * string) :=
  '(value, r2) ← cut (String dq EmptyString) r1;
  '(_, r3) ← cut ">" r2;
  '(label, r4) ← cut "<" r3;
  r5 ← Html.expect "/option>" r4;
  Some (value, label, r5).

(** The attribute inside the opening tag: the rightmost place, before the
    next [>], from which the pattern goes through. *)
Fixpoint valueAttr (r : string) : option (string * string * string) :=
  let here := r1 ← Html.expect ("value=" +:+ String dq EmptyString) r; afterValue r1 in
  match r with
  | EmptyString => None
  | String c r' =>
      if Ascii.eqb c ">" then None
      else match valueAttr r' with
           | Some found => Some found
           | None => here
           end
  end.

(** The pattern at the front of [s]. *)
Definition matchOption (s : string) : option (string * string * string) :=
  r0 ← Html.expect "<option" s;
  valueAttr r0.

(** The successive results of [optionPattern.exec(html)]. *)
Fixpoint execOptions (skip : nat) (html : string) : list (string * string) :=
  match html with
  | EmptyString => []
  | String _ html' =>
      match skip with
      | S k => execOptions k html'
      | O =>
          match matchOption html with
          | Some (value, label, rest) =>
              (value, label)
                :: execOptions (String.length html - String.length rest - 1) html'
          | None => execOptions 0 html'
          end
      end
  end.

(** The body of the [while] loop of [parseProjects]. *)
Definition addProject (projects : list string) (m : string * string) : list string :=
  let projectName := if truthy (fst m) then fst m else snd m in
  if truthy projectName && negb (String.eqb (trim projectName) EmptyString)
  then projects ++ [trim projectName]
  else projects.

Definition parseProjects (html : string) : list string :=
  foldl addProject [] (execOptions 0 html).

Definition listProjects (self : Html.OpenGrokClient) : Net string (list string) :=
  Html.listProjects parseProjects self.

End HtmlProjects.

(** ** Further read operations of [OpenGrokApiClient] *)
Module ApiMore.

Definition getConfiguration {D} (self : Api.OpenGrokApiClient) : Net D D :=
  Api.guarded self "Failed to get configuration"
    {| url := "/configuration"; params := [] |}.

Definition getConfigurationField {D} (self : Api.OpenGrokApiClient) (field : string)
    : Net D D :=
  Api.guarded self "Failed to get configuration field"
    {| url := "/configuration/" +:+ field; params := [] |}.

Definition getMessages {D} (self : Api.OpenGrokApiClient) (tag : string) : Net D D :=
  Api.guarded self "Failed to get messages"
    {| url := "/messages"; params := [("tag", tag)] |}.

Definition getMetrics {D} (self : Api.OpenGrokApiClient) : Net D D :=
  Api.plain self "Failed to get metrics: " "Failed to get metrics"
    {| url := "/metrics/prometheus"; params := [] |}.

Definition getGroups {D} (self : Api.OpenGrokApiClient) : Net D D :=
  Api.guarded self "Failed to get groups" {| url := "/groups"; params := [] |}.

Definition getGroupAllProjects {D} (self : Api.OpenGrokApiClient) (group : string)
    : Net D D :=
  Api.guarded self "Failed to get group projects"
    {| url := "/groups/" +:+ group +:+ "/allprojects"; params := [] |}.

Definition getGroupPattern {D} (self : Api.OpenGrokApiClient) (group : string)
    : Net D D :=
  Api.guarded self "Failed to get group pattern"
    {| url := "/groups/" +:+ group +:+ "/pattern"; params := [] |}.

Definition getProjectProperty {D} (self : Api.OpenGrokApiClient)
    (projectName propertyName : string) : Net D D :=
  Api.guarded self "Failed to get project property"
    {| url := "/projects/" +:+ projectName +:+ "/property/" +:+ propertyName;
       params := [] |}.

Definition getRepositoryField {D} (self : Api.OpenGrokApiClient) (field : string)
    (repository : option string) : Net D D :=
  Api.guarded self "Failed to get repository field"
    {| url := "/repositories/property/" +:+ field;
       params := if truthy_opt repository then Api.param "repository" repository
                 else [] |}.

Definition getSuggesterConfig {D} (self : Api.OpenGrokApiClient) : Net D D :=
  Api.plain self "Get suggester config failed with status "
    "Get suggester config failed" {| url := "/suggest/config"; params := [] |}.

(** [checkRequestStatus]: the status itself is the result. *)
Definition checkRequestStatus {D} (self : Api.OpenGrokApiClient) (uuid : string)
    : Net D N :=
  try_catch
    (let* response := get (Api.client self) {| url := "/status/" +:+ uuid; params := [] |} in
     ret (status response))
    (fun message => throw ("Check request status failed: " +:+ message)).

End ApiMore.

(** ** The probe and the accessors of [OpenGrokAuth] *)
Module AuthCheck.

Definition isAuthenticated {D} (self : Auth.OpenGrokAuth) : Net D bool :=
  try_catch
    (let* response :=
       get (Auth.axiosClient self)
           {| url := Auth.baseUrl self +:+ "/api/v1/projects"; params := [] |} in
     ret (status response =? 200)%N)
    (fun _ => ret false).

Definition getClient (self : Auth.OpenGrokAuth) : AxiosConfig := Auth.axiosClient self.

Definition getCookieJar (self : Auth.OpenGrokAuth) : CookieJar.t := Auth.cookieJar self.

End AuthCheck.

(** ** Configuration from the environment *)
Module Config.

Record OpenGrokConfig : Type := {
  baseUrl : string;
  defaultProject : option string;
  username : option string;
  password : option string;
  cookieString : option string;
  useOAuth : bool
}.

(** [process.env]: a variable is set to a string or is [undefined]. *)
Definition Env : Type := string -> option string.

(** [value || undefined] *)
Definition orUndefined (value : option string) : option string :=
  if truthy_opt value then value else None.

Definition getConfig (env : Env) : OpenGrokConfig :=
  {| baseUrl := or_else (env "OPENGROK_URL") "http://localhost:8080/source";
     defaultProject := orUndefined (env "OPENGROK_DEFAULT_PROJECT");
     username := orUndefined (env "OPENGROK_USERNAME");
     password := orUndefined (env "OPENGROK_PASSWORD");
     cookieString := orUndefined (env "OPENGROK_COOKIES");
     useOAuth := match env "OPENGROK_USE_OAUTH" with
                 | Some v => String.eqb v "true"
                 | None => false
                 end |}.

End Config.

(** ** The tool server over the html-scrape client *)
Module HtmlServer.

(** [initializeClientAsync], for a client built by [make]: with OAuth, or
    with neither user name nor password, the credential holder is created,
    probed, and its jar handed to the client; otherwise the client gets the
    user name and the password. *)
Definition initializeClientWith {C D}
    (make : string -> option CookieJar.t -> option string -> option string -> C)
    (config : Config.OpenGrokConfig) : Net D C :=
  try_catch
    (if Config.useOAuth config
        || (negb (truthy_opt (Config.username config))
            && negb (truthy_opt (Config.password config)))
     then
       let authHandler := Auth.new (Config.baseUrl config) (Config.cookieString config) in
       let* isAuth := AuthCheck.isAuthenticated authHandler in
       ret (make (Config.baseUrl config) (Some (AuthCheck.getCookieJar authHandler))
                 None None)
     else
       ret (make (Config.baseUrl config) None (Config.username config)
                 (Config.password config)))
    (fun _ => ret (make (Config.baseUrl config) None None None)).

Definition initializeClientAsync {D} (config : Config.OpenGrokConfig)
    : Net D Html.OpenGrokClient :=
  initializeClientWith Html.new config.

(** The result of a tool call: one text item, and the error flag. *)
Record ToolResult : Type := { text : string; isError : bool }.

(** The arguments object of a tool call, as the handler casts it. *)
Record ToolArgs : Type := {
  query : string;
  project : option string;
  searchType : option SearchType;
  language : option string;
  maxResults : option Z;
  path : string;
  symbol : string
}.

Section Handler.

(** [JSON.stringify(value, null, 2)] on the three result shapes. *)
Variable stringifyResults : list SearchResult.t -> string.
Variable stringifyRefs : list CrossReference.t -> string.
Variable stringifyProjects : list string -> string.

(** [a || b] on optional strings. *)
Definition orOption (a b : option string) : option string :=
  if truthy_opt a then a else b.

(** The handler of tool calls. *)
Definition callTool (openGrokClient : Html.OpenGrokClient)
    (config : Config.OpenGrokConfig) (name : string) (args : ToolArgs)
    : Net string ToolResult :=
  try_catch
    (if String.eqb name "opengrok_search" then
       let searchType := default full (searchType args) in
       let maxResults := default 50%Z (maxResults args) in
       if negb (truthy_opt (project args))
          || String.eqb (trim (or_else (project args) EmptyString)) EmptyString
       then throw "Project parameter is required. Use opengrok_list_projects to see available projects."
       else
         let* results :=
           Html.search openGrokClient (query args) (or_else (project args) EmptyString)
                       (Some searchType) (language args) (Some maxResults) in
         ret {| text := stringifyResults results; isError := false |}
     else if String.eqb name "opengrok_get_file" then
       let* fileContent :=
         Html.getFileContent openGrokClient (path args)
                             (orOption (project args) (Config.defaultProject config)) in
       ret {| text := FileContent.content fileContent; isError := false |}
     else if String.eqb name "opengrok_xref" then
       let* refs :=
         Html.getCrossReferences openGrokClient (symbol args)
                                 (orOption (project args) (Config.defaultProject config)) in
       ret {| text := stringifyRefs refs; isError := false |}
     else if String.eqb name "opengrok_list_projects" then
       let* projects := HtmlProjects.listProjects openGrokClient in
       ret {| text := stringifyProjects projects; isError := false |}
     else throw ("Unknown tool: " +:+ name))
    (fun message => ret {| text := "Error: " +:+ message; isError := true |}).

End Handler.

End HtmlServer.

(** ** The start of the tool server over the rest-api client *)
Module RestServer.

Definition initializeClientAsync {D} (config : Config.OpenGrokConfig)
    : Net D Rest.OpenGrokClient :=
  HtmlServer.initializeClientWith Rest.new config.

End RestServer.

(** ** The tool handler of the server over the rest-api client *)
Module RestTools.

(** The arguments object of a tool call, as the handler casts it. *)
Record ToolArgs : Type := {
  query : string;
  project : option string;
  searchType : option SearchType;
  language : option string;
  maxResults : option Z;
  path : string;
  withFiles : option bool;
  start : option Z;
  max : option Z;
  symbol : string;
  field : option string
}.

Section Handler.

(** The values of the endpoints that answer JSON. *)
Variable J : Type.

(** [JSON.stringify(value, null, 2)] on the result shapes. *)
Variable stringifyResults : list SearchResult.t -> string.
Variable stringifyRefs : list CrossReference.t -> string.
Variable stringifyJson : J -> string.
Variable stringifySuggestions : list J -> string.

(** The upstream, endpoint by endpoint: each kind of endpoint answers with
    bodies of its own type. *)
Record Upstreams : Type := {
  searchUpstream : Upstream Api.SearchResponse;
  textUpstream : Upstream string;
  jsonUpstream : Upstream J;
  suggestUpstream : Upstream (Api.SuggesterResponse J)
}.

(** A computation of the handler: it runs calls against the upstreams and
    extends the one log of requests. *)
Definition Tool (A : Type) : Type :=
  Upstreams -> list Request -> Result A * list Request.

(** One case of the handler: the call is awaited and its value rendered as
    the text of the result; what it throws reaches the [catch] of the
    handler, which returns the error result. *)
Definition answer {D A} (pick : Upstreams -> Upstream D) (call : Net D A)
    (render : A -> string) : Tool HtmlServer.ToolResult :=
  fun ups log =>
    match call (pick ups) log with
    | (Return a, log') =>
        (Return {| HtmlServer.text := render a; HtmlServer.isError := false |}, log')
    | (Throw message, log') =>
        (Return {| HtmlServer.text := "Error: " +:+ message;
                   HtmlServer.isError := true |}, log')
    end.

(** A [throw] in the handler itself: caught alike. *)
Definition refuse (message : string) : Tool HtmlServer.ToolResult :=
  fun _ log =>
    (Return {| HtmlServer.text := "Error: " +:+ message; HtmlServer.isError := true |},
     log).

Definition callTool (openGrokClient : Rest.OpenGrokClient)
    (config : Config.OpenGrokConfig) (name : string) (args : ToolArgs)
    : Tool HtmlServer.ToolResult :=
  if String.eqb name "opengrok_search" then
    let searchType := default full (searchType args) in
    let maxResults := default 50%Z (maxResults args) in
    if negb (truthy_opt (project args))
       || String.eqb (trim (or_else (project args) EmptyString)) EmptyString
    then refuse "Project parameter is required. Use opengrok_list_projects to see available projects."
    else
      answer searchUpstream
        (Rest.search openGrokClient (query args) (or_else (project args) EmptyString)
                     (Some searchType) (language args) (Some maxResults))
        stringifyResults
  else if String.eqb name "opengrok_get_file" then
    answer textUpstream (Rest.getFileContent openGrokClient (path args) None)
           FileContent.content
  else if String.eqb name "opengrok_xref" then
    answer searchUpstream
      (Rest.getCrossReferences openGrokClient (symbol args)
         (HtmlServer.orOption (project args) (Config.defaultProject config)))
      stringifyRefs
  else if String.eqb name "opengrok_list_projects" then
    answer jsonUpstream (Rest.listProjects openGrokClient) stringifyJson
  else if String.eqb name "opengrok_get_annotation" then
    answer jsonUpstream (Rest.getAnnotation openGrokClient (path args)) stringifyJson
  else if String.eqb name "opengrok_get_directory_listing" then
    answer jsonUpstream (Rest.getDirectoryListing openGrokClient (path args))
           stringifyJson
  else if String.eqb name "opengrok_get_history" then
    answer jsonUpstream
      (Rest.getHistory openGrokClient (path args) (withFiles args) (start args)
                       (max args))
      stringifyJson
  else if String.eqb name "opengrok_get_file_definitions" then
    answer jsonUpstream (Rest.getFileDefinitions openGrokClient (path args))
           stringifyJson
  else if String.eqb name "opengrok_get_file_genre" then
    answer textUpstream (Rest.getFileGenre openGrokClient (path args)) (fun genre => genre)
  else if String.eqb name "opengrok_ping" then
    answer jsonUpstream (Rest.ping openGrokClient)
      (fun isAlive : bool =>
         "OpenGrok server is " +:+ (if isAlive then "alive" else "not responding"))
  else if String.eqb name "opengrok_get_indexed_projects" then
    answer jsonUpstream (Rest.getIndexedProjects openGrokClient) stringifyJson
  else if String.eqb name "opengrok_get_project_repositories" then
    answer jsonUpstream
      (Rest.getProjectRepositories openGrokClient (default "undefined" (project args)))
      stringifyJson
  else if String.eqb name "opengrok_get_project_repository_types" then
    answer jsonUpstream
      (Rest.getProjectRepositoryTypes openGrokClient (default "undefined" (project args)))
      stringifyJson
  else if String.eqb name "opengrok_get_project_indexed_files" then
    answer jsonUpstream
      (Rest.getProjectIndexedFiles openGrokClient (default "undefined" (project args)))
      stringifyJson
  else if String.eqb name "opengrok_get_last_index_time" then
    answer textUpstream (Rest.getLastIndexTime openGrokClient) (fun lastTime => lastTime)
  else if String.eqb name "opengrok_get_version" then
    answer textUpstream (Rest.getVersion openGrokClient) (fun version => version)
  else if String.eqb name "opengrok_get_suggestions" then
    answer suggestUpstream
      (Rest.getSuggestions openGrokClient (query args) (project args)
                           (Some (default "full" (field args))))
      stringifySuggestions
  else refuse ("Unknown tool: " +:+ name).

End Handler.

End RestTools.

(** ** Notions used to state the properties *)

(** A failure is an authentication failure when its message says so: the
    clients throw plain errors, told apart by their text. *)
Definition authenticationFailed {A} (r : Result A) : bool :=
  match r with
  | Throw message => includes "Authentication failed" message
  | Return _ => false
  end.

(** What [pushHit] accepts: both fields of the hit are non-empty. *)
Definition accepted (hit : Api.Hit) : bool :=
  truthy (Api.lineNumber hit) && truthy (Api.line hit).

(** The search hit made from an accepted hit of [filePath]. *)
Definition hitResult (project filePath : string) (hit : Api.Hit) : SearchResult.t :=
  {| SearchResult.path := filePath;
     SearchResult.line := parseInt (Api.lineNumber hit);
     SearchResult.snippet := Api.line hit;
     SearchResult.project := or_else (Some project) "unknown" |}.

(** The hits of one entry, flattened. *)
Definition entryResults (project : string) (entry : string * list Api.Hit)
    : list SearchResult.t :=
  map (hitResult project (fst entry)) (filter (fun h => accepted h = true) (snd entry)).

(** [c] does not occur in [s]. *)
Definition absent (c : ascii) (s : string) : bool :=
  allChars (fun d => negb (Ascii.eqb d c)) s.

(** The three entity escapes reversed, in the order of the source. *)
Definition unescape (s : string) : string :=
  replaceAll "&amp;" "&" (replaceAll "&gt;" ">" (replaceAll "&lt;" "<" s)).

(** The key under which [parseSearchResults] remembers a hit. *)
Definition resultKey (r : SearchResult.t) : string :=
  SearchResult.path r +:+ ":" +:+ show (SearchResult.line r).

(** The hit that a match of the pattern stands for. *)
Definition matchResult (project : option string) (m : Html.Match) : SearchResult.t :=
  {| SearchResult.path := Html.group1 m;
     SearchResult.line := or_zero (parseInt (Html.group2 m));
     SearchResult.snippet := Html.group3 m;
     SearchResult.project := or_else project "unknown" |}.

(** What the loop maintains: every hit kept so far has its key in [seen],
    every key of [seen] is the key of a hit kept so far, and no two hits
    kept so far have the same key. *)
Definition loopInvariant (st : gset string * list SearchResult.t) : Prop :=
  (forall k, k ∈ fst st <-> k ∈ map resultKey (snd st))
  /\ NoDup (map resultKey (snd st)).

(** Equality of line numbers is decidable. *)
#[global] Instance jsnum_eq_dec : EqDecision jsnum.
Proof. solve_decision. Defined.



(** The tag pattern of [extractFileContent] matches at the front of [s]: a
    [<], at least one character other than [>], and a [>]. *)
Definition tagAt (s : string) : bool :=
  match s with
  | EmptyString => false
  | String c s' =>
      Ascii.eqb c "<"
      && match Html.indexOfChar ">" s' with
         | Some (S _) => true
         | _ => false
         end
  end.

(** The tag pattern matches somewhere in [s]. *)
Fixpoint hasTag (s : string) : bool :=
  match s with
  | EmptyString => false
  | String _ s' => tagAt s || hasTag s'
  end.


(** The query key under which each client sends the text searched for. *)
Definition htmlSearchKey (searchType : SearchType) : string :=
  match searchType with
  | full => "full" | defs => "defs" | refs => "refs" | path => "path" | hist => "hist"
  end.

Definition restSearchKey (searchType : SearchType) : string :=
  match searchType with
  | full => "full" | defs => "def" | refs => "symbol" | path => "path" | hist => "hist"
  end.


(** The cross references made from the hit records of one file by the
    rest-api client: one per record with a non-empty line number. *)
Definition entryReferences (symbol : string) (entry : string * list Api.Hit)
    : list CrossReference.t :=
  map (fun hit => {| CrossReference.symbol := symbol;
                     CrossReference.file := fst entry;
                     CrossReference.line := parseInt (Api.lineNumber hit);
                     CrossReference.type := reference |})
      (filter (fun hit => truthy (Api.lineNumber hit) = true) (snd entry)).

(** The start-up takes the OAuth path: OAuth is asked for, or neither a user
    name nor a password is configured. *)
Definition oauthPath (config : Config.OpenGrokConfig) : bool :=
  Config.useOAuth config
  || (negb (truthy_opt (Config.username config))
      && negb (truthy_opt (Config.password config))).

(** The basic-auth pair a client attaches: both parts given and non-empty. *)
Definition basicAuth (username password : option string) : option (string * string) :=
  match username, password with
  | Some u, Some p => if truthy u && truthy p then Some (u, p) else None
  | _, _ => None
  end.

(** The text of a tool result that reports a failure. *)
Definition toolError (message : string) : HtmlServer.ToolResult :=
  {| HtmlServer.text := "Error: " +:+ message; HtmlServer.isError := true |}.

(** A project argument that the tool handler refuses: missing, empty or
    blank. *)
Definition blankProject (project : option string) : bool :=
  negb (truthy_opt project) || String.eqb (trim (or_else project EmptyString)) EmptyString.

(** The names of the tools of the server over the rest-api client. *)
Definition restToolNames : list string :=
  ["opengrok_search"; "opengrok_get_file"; "opengrok_xref"; "opengrok_list_projects";
   "opengrok_get_annotation"; "opengrok_get_directory_listing"; "opengrok_get_history";
   "opengrok_get_file_definitions"; "opengrok_get_file_genre"; "opengrok_ping";
   "opengrok_get_indexed_projects"; "opengrok_get_project_repositories";
   "opengrok_get_project_repository_types"; "opengrok_get_project_indexed_files";
   "opengrok_get_last_index_time"; "opengrok_get_version"; "opengrok_get_suggestions"].

(** * Properties *)

(** ** The primitives on concrete inputs *)

Example parseInt_digits_then_text : parseInt " 42abc" = Int 42.
Proof. reflexivity. Qed.

Example parseInt_no_digit : parseInt "abc" = NaN.
Proof. reflexivity. Qed.

Example parseInt_leading_zeros : or_zero (parseInt "007") = Int 7.
Proof. reflexivity. Qed.

Example split_then_trim :
  map trim (split ";" "a=1; b=2") = ["a=1"; "b=2"].
Proof. reflexivity. Qed.

Example replaceAll_every_occurrence :
  replaceAll "&lt;" "<" "a &lt;&lt; b &lt" = "a << b &lt".
Proof. reflexivity. Qed.

Example stripTags_keeps_lone_brackets :
  Html.stripTags "a<b class=c>d</b><>e<f" = "ad<>e<f".
Proof. reflexivity. Qed.

Example pathAndLine_last_hash :
  Html.pathAndLine "proj/a#b.c#12" = Some ("proj/a#b.c", "12").
Proof. reflexivity. Qed.

Example extractFileContent_no_block :
  Html.extractFileContent "<html><body>gone</body></html>"
  = "File content could not be extracted".
Proof. reflexivity. Qed.

Example jar_skips_bad_segments :
  Auth.getCookieString (Auth.new "http://grok" (Some "a=1; junk; =x; b=2; a=3"))
  = "a=3; b=2".
Proof. reflexivity. Qed.

(** ** Transport policy *)

Lemma html_validateStatus b j u p status :
  validateStatus (Html.client (Html.new b j u p)) status = true.
Proof. unfold Html.new. destruct j; reflexivity. Qed.

Lemma api_validateStatus b j u p status :
  validateStatus (Api.client (Api.new b j u p)) status
  = (200 <=? status)%N && (status <? 500)%N.
Proof. reflexivity. Qed.

(** C4 (as stated, refuted): in rest-api mode the transport policy rejects
    status 500, and the HTTP client throws on it. *)
Lemma rest_validateStatus_rejects_500 :
  validateStatus (Api.client (Api.new "http://grok" None None None)) 500 = false
  /\ fst (run (get (Api.client (Api.new "http://grok" None None None))
                   {| url := "/search"; params := [] |})
              (fun _ _ => Replied {| status := 500%N; data := tt |}))
     = Throw "Request failed with status code 500".
Proof. split; reflexivity. Qed.

(** C4 (amended): the html-scrape client and the credential holder's client
    accept every status; the rest-api client accepts exactly the statuses from
    200 to 499, so no 4xx status makes the HTTP client throw there, while a
    status outside that range does. *)
Theorem validateStatus_policy :
  forall (b : string) (j : option CookieJar.t) (u p c : option string) (status : N),
    validateStatus (Html.client (Html.new b j u p)) status = true
    /\ validateStatus (Auth.axiosClient (Auth.new b c)) status = true
    /\ (validateStatus (Api.client (Rest.apiClient (Rest.new b j u p))) status = true
        <-> (200 <= status < 500)%N).
Proof.
  intros b j u p c status. split; [apply html_validateStatus|]. split.
  - unfold Auth.new. destruct c as [s|]; [destruct (truthy s)|]; reflexivity.
  - unfold Rest.new. simpl. rewrite andb_true_iff, N.leb_le, N.ltb_lt. reflexivity.
Qed.

(** ** Liveness check *)

(** C8: [ping] returns a boolean whatever the network call meets, a transport
    failure or any status: [true] exactly for a response with status 200,
    [false] otherwise, and it never throws. This holds of the [ping] of the
    REST client and of the [ping] of the facade built on it. *)
Theorem ping_never_raises :
  forall (D : Type) (b : string) (j : option CookieJar.t) (u p : option string)
         (up : Upstream D) (log : list Request),
    let self := Rest.new b j u p in
    let req := {| url := "/system/ping"; params := [] |} in
    let alive :=
      match up log req with
      | Replied r => (status r =? 200)%N
      | Failed _ => false
      end in
    Api.ping (Rest.apiClient self) up log = (Return alive, log ++ [req])
    /\ Rest.ping self up log = (Return alive, log ++ [req]).
Proof.
  intros D b j u p up log self req alive.
  assert (Hapi : Api.ping (Rest.apiClient self) up log = (Return alive, log ++ [req])).
  { unfold Api.ping, try_catch, Http.bind, get, ret. fold req. subst alive.
    destruct (up log req) as [r|reason]; [|reflexivity].
    change (validateStatus (Api.client (Rest.apiClient self)) (status r))
      with ((200 <=? status r)%N && (status r <? 500)%N).
    destruct ((200 <=? status r)%N && (status r <? 500)%N) eqn:Hv; [reflexivity|].
    f_equal. f_equal.
    destruct (N.eqb_spec (status r) 200) as [E|]; [|reflexivity].
    rewrite E in Hv. discriminate. }
  split; [exact Hapi|].
  unfold Rest.ping, try_catch. now rewrite Hapi.
Qed.

(** ** Credentials *)

(** C9: loading [a=1; b=2] into a fresh holder and serialising gives one
    string joined by semicolons that contains both pairs. *)
Theorem credential_round_trip :
  forall baseUrl : string,
    let s := Auth.getCookieString (Auth.new baseUrl (Some "a=1; b=2")) in
    s = "a=1; b=2" /\ includes "a=1" s = true /\ includes "b=2" s = true.
Proof. intros baseUrl. repeat split; reflexivity. Qed.

(** ** Authentication failures *)

Lemma startsWith_app (n rest : string) : startsWith n (n +:+ rest) = true.
Proof.
  induction n as [|c n IH]; simpl; [reflexivity|].
  now rewrite Ascii.eqb_refl.
Qed.

Lemma includes_app (n before after : string) :
  includes n (before +:+ n +:+ after) = true.
Proof.
  unfold includes. induction before as [|c before IH].
  - change ("" +:+ n +:+ after) with (n +:+ after).
    destruct n as [|a n]; [destruct after; reflexivity|].
    change (String a n +:+ after) with (String a (n +:+ after)). cbn [cut].
    change (String a (n +:+ after)) with (String a n +:+ after).
    now rewrite (startsWith_app (String a n) after).
  - change (String c before +:+ n +:+ after) with (String c (before +:+ n +:+ after)).
    cbn [cut].
    destruct (startsWith n (String c (before +:+ n +:+ after))); [reflexivity|].
    destruct (cut n (before +:+ n +:+ after)) as [[? ?]|];
      [reflexivity|discriminate].
Qed.

Lemma includes_behind (n before s : string) :
  includes n s = true -> includes n (before +:+ s) = true.
Proof.
  unfold includes. intros Hs. induction before as [|c before IH]; [exact Hs|].
  change (String c before +:+ s) with (String c (before +:+ s)). cbn [cut].
  destruct (startsWith n (String c (before +:+ s))); [reflexivity|].
  destruct (cut n (before +:+ s)) as [[? ?]|]; [reflexivity|discriminate].
Qed.

Lemma authenticationFailed_intro {A} (before after : string) :
  authenticationFailed (A := A)
    (Throw (before +:+ "Authentication failed" +:+ after)) = true.
Proof. apply includes_app. Qed.

Lemma isAuthStatus_cases status :
  isAuthStatus status = true -> status = 401%N \/ status = 403%N.
Proof.
  unfold isAuthStatus. rewrite orb_true_iff, !N.eqb_eq. tauto.
Qed.

(** The operations of the rest-api client that inspect the status for an
    authentication failure do report one on 401 and 403. *)
Lemma guarded_auth {D} b j u p what req (up : Upstream D) log r :
  up log req = Replied r ->
  isAuthStatus (status r) = true ->
  Api.guarded (Api.new b j u p) what req up log
  = (Throw (what +:+ ": " +:+ "Authentication failed (" +:+ showN (status r)
            +:+ "). Update OPENGROK_COOKIES."),
     log ++ [req]).
Proof.
  intros Hup Hauth. unfold Api.guarded, try_catch, Http.bind, get, throw.
  rewrite Hup, api_validateStatus.
  assert (Hv : (200 <=? status r)%N && (status r <? 500)%N = true)
    by (destruct (isAuthStatus_cases _ Hauth) as [E|E]; rewrite E; reflexivity).
  rewrite Hv, Hauth. reflexivity.
Qed.

(** The html-scrape operations report an authentication failure on 401 and
    403, before the body is read. *)
Lemma html_search_auth b j u p query project searchType language maxResults
    (up : Upstream string) r :
  truthy project = true ->
  (forall req, up [] req = Replied r) ->
  isAuthStatus (status r) = true ->
  authenticationFailed
    (fst (run (Html.search (Html.new b j u p) query project searchType language
                           maxResults) up)) = true.
Proof.
  intros Hp Hup Hauth.
  unfold run, Html.search. rewrite Hp. cbn [negb]. cbv beta match.
  unfold try_catch, Http.bind, get, throw.
  rewrite Hup, html_validateStatus, Hauth. cbn [fst].
  apply (authenticationFailed_intro "OpenGrok search failed: ").
Qed.

Lemma html_getCrossReferences_auth b j u p symbol project (up : Upstream string) r :
  (forall req, up [] req = Replied r) ->
  isAuthStatus (status r) = true ->
  authenticationFailed
    (fst (run (Html.getCrossReferences (Html.new b j u p) symbol project) up)) = true.
Proof.
  intros Hup Hauth.
  unfold run, Html.getCrossReferences, try_catch, Http.bind, get, throw.
  rewrite Hup, html_validateStatus, Hauth. cbn [fst].
  apply (authenticationFailed_intro "Failed to get cross-references: ").
Qed.

Lemma html_getFileContent_auth b j u p path project (up : Upstream string) r :
  (forall log req, up log req = Replied r) ->
  isAuthStatus (status r) = true ->
  authenticationFailed
    (fst (run (Html.getFileContent (Html.new b j u p) path project) up)) = true.
Proof.
  intros Hup Hauth.
  assert (H404 : (status r =? 404)%N = false)
    by (destruct (isAuthStatus_cases _ Hauth) as [E|E]; rewrite E; reflexivity).
  unfold run, Html.getFileContent, try_catch, Http.bind, get, throw, ret.
  rewrite Hup, html_validateStatus, H404. cbn [andb]. rewrite Hauth. cbn [fst].
  apply (authenticationFailed_intro "Failed to get file content: ").
Qed.

(** So does every facade operation of the rest-api client that delegates to
    one of them. *)
Lemma rest_delegate_guarded_auth {D} b j u p what what' req (up : Upstream D) r :
  up [] req = Replied r ->
  isAuthStatus (status r) = true ->
  authenticationFailed
    (fst (run (Rest.delegate what (Api.guarded (Api.new b j u p) what' req)) up)) = true.
Proof.
  intros Hup Hauth. unfold run, Rest.delegate, try_catch.
  rewrite (guarded_auth _ _ _ _ _ _ _ _ _ Hup Hauth). cbn [fst throw].
  unfold authenticationFailed.
  apply includes_behind, includes_behind, includes_behind, includes_behind.
  apply (includes_app "Authentication failed" "").
Qed.

Lemma rest_getAnnotation_auth {D} b j u p path (up : Upstream D) r :
  (forall req, up [] req = Replied r) ->
  isAuthStatus (status r) = true ->
  authenticationFailed
    (fst (run (Rest.getAnnotation (Rest.new b j u p) path) up)) = true.
Proof.
  intros Hup Hauth.
  exact (rest_delegate_guarded_auth _ _ _ _ _ _ _ _ _ (Hup _) Hauth).
Qed.

Lemma rest_listProjects_auth {D} b j u p (up : Upstream D) r :
  (forall req, up [] req = Replied r) ->
  isAuthStatus (status r) = true ->
  authenticationFailed (fst (run (Rest.listProjects (Rest.new b j u p)) up)) = true.
Proof.
  intros Hup Hauth.
  exact (rest_delegate_guarded_auth _ _ _ _ _ _ _ _ _ (Hup _) Hauth).
Qed.

Lemma rest_getHistory_auth {D} b j u p path withFiles start max (up : Upstream D) r :
  (forall req, up [] req = Replied r) ->
  isAuthStatus (status r) = true ->
  authenticationFailed
    (fst (run (Rest.getHistory (Rest.new b j u p) path withFiles start max) up)) = true.
Proof.
  intros Hup Hauth.
  exact (rest_delegate_guarded_auth _ _ _ _ _ _ _ _ _ (Hup _) Hauth).
Qed.

Lemma html_listProjects_auth parseProjects b j u p (up : Upstream string) r :
  (forall req, up [] req = Replied r) ->
  isAuthStatus (status r) = true ->
  authenticationFailed
    (fst (run (Html.listProjects parseProjects (Html.new b j u p)) up)) = true.
Proof.
  intros Hup Hauth.
  unfold run, Html.listProjects, try_catch, Http.bind, get, throw.
  rewrite Hup, html_validateStatus, Hauth. cbn [fst].
  apply (authenticationFailed_intro "Failed to list projects: ").
Qed.

(** The operations of the rest-api client that only compare the status with
    200 treat 401 and 403 like any other status. *)
Lemma plain_auth_status {D} b j u p failure what req (up : Upstream D) log r :
  up log req = Replied r ->
  isAuthStatus (status r) = true ->
  Api.plain (Api.new b j u p) failure what req up log
  = (Throw (what +:+ ": " +:+ failure +:+ showN (status r)), log ++ [req]).
Proof.
  intros Hup Hauth. unfold Api.plain, try_catch, Http.bind, get, throw.
  rewrite Hup, api_validateStatus.
  assert (Hv : (200 <=? status r)%N && (status r <? 500)%N = true)
    by (destruct (isAuthStatus_cases _ Hauth) as [E|E]; rewrite E; reflexivity).
  assert (Hs : negb (status r =? 200)%N = true)
    by (destruct (isAuthStatus_cases _ Hauth) as [E|E]; rewrite E; reflexivity).
  rewrite Hv, Hs. reflexivity.
Qed.

(** The rest-api search has no such inspection: with a truthy project, a
    response with status 401 or 403 fails like any other status than 200. *)
Lemma rest_search_auth_status b j u p query project searchType language maxResults
    (up : Upstream Api.SearchResponse) r :
  truthy project = true ->
  (forall req, up [] req = Replied r) ->
  isAuthStatus (status r) = true ->
  fst (run (Rest.search (Rest.new b j u p) query project searchType language
                        maxResults) up)
  = Throw ("OpenGrok search failed: Search failed: Search failed with status "
           +:+ showN (status r)).
Proof.
  intros Hp Hup Hauth.
  unfold run, Rest.search. rewrite Hp. cbn [negb]. cbv beta match zeta.
  unfold Rest.delegate, Api.search, try_catch, Http.bind.
  unfold Rest.new. cbn [Rest.apiClient].
  rewrite (plain_auth_status _ _ _ _ _ _ _ _ _ _ (Hup _) Hauth). reflexivity.
Qed.

(** C1 (the code departs from it): the rest-api [search], answered with status
    401, throws the generic status failure, whose message is not that of an
    authentication failure; the html-scrape [search] on the same answer does
    throw the authentication failure. *)
Theorem rest_search_unauthorized_is_generic_failure :
  let answer {D} (body : D) : Upstream D :=
    fun _ _ => Replied {| status := 401%N; data := body |} in
  let nothing :=
    {| Api.time := 0%N; Api.resultCount := 0%N; Api.startDocument := 0%N;
       Api.endDocument := 0%N; Api.results := [] |} in
  let rest :=
    fst (run (Rest.search (Rest.new "http://grok" None None None)
                          "main" "proj" (Some full) None None) (answer nothing)) in
  let html :=
    fst (run (Html.search (Html.new "http://grok" None None None)
                          "main" "proj" (Some full) None None) (answer "")) in
  rest = Throw "OpenGrok search failed: Search failed: Search failed with status 401"
  /\ authenticationFailed rest = false
  /\ authenticationFailed html = true.
Proof. repeat split; reflexivity. Qed.

(** ** The rest-api normaliser *)

Lemma pushHit_accepted project filePath results hit :
  Rest.pushHit project filePath results hit
  = results ++ (if accepted hit then [hitResult project filePath hit] else []).
Proof.
  unfold Rest.pushHit, accepted, hitResult.
  destruct (truthy (Api.lineNumber hit)); cbn [andb];
    [destruct (truthy (Api.line hit))|]; now rewrite ?app_nil_r.
Qed.

Lemma foldl_pushHit project filePath hits results :
  foldl (Rest.pushHit project filePath) results hits
  = results ++ map (hitResult project filePath) (filter (fun h => accepted h = true) hits).
Proof.
  revert results. induction hits as [|hit hits IH]; intros results; cbn [foldl].
  - now rewrite app_nil_r.
  - rewrite IH, pushHit_accepted, filter_cons.
    destruct (accepted hit) eqn:Hacc.
    + rewrite decide_True by reflexivity. cbn [map]. now rewrite <- app_assoc.
    + rewrite decide_False by discriminate. now rewrite app_nil_r.
Qed.

Lemma foldl_entries project entries results :
  foldl (fun results '(filePath, hits) =>
           foldl (Rest.pushHit project filePath) results hits) results entries
  = results ++ concat (map (entryResults project) entries).
Proof.
  revert results. induction entries as [|[filePath hits] entries IH]; intros results;
    cbn [foldl map concat].
  - now rewrite app_nil_r.
  - rewrite IH, foldl_pushHit. unfold entryResults at 2. cbn [fst snd].
    now rewrite <- app_assoc.
Qed.

Lemma transformSearchResults_flat apiResponse project :
  Rest.transformSearchResults apiResponse project
  = concat (map (entryResults project) (Api.results apiResponse)).
Proof. unfold Rest.transformSearchResults. now rewrite foldl_entries. Qed.

(** C5 (the code departs from it): a hit whose line-number field is the
    non-numeric text [abc] becomes a search hit whose line number is [NaN],
    not 0; its highlighted line is kept unchanged as the snippet. *)
Theorem rest_non_numeric_line_is_NaN :
  Rest.transformSearchResults
    {| Api.time := 1%N; Api.resultCount := 1%N; Api.startDocument := 0%N;
       Api.endDocument := 1%N;
       Api.results :=
         [("/src/a.c",
           [ {| Api.line := "int <b>x</b>;"; Api.lineNumber := "abc"; Api.tag := "" |} ])] |}
    "proj"
  = [ {| SearchResult.path := "/src/a.c";
         SearchResult.line := NaN;
         SearchResult.snippet := "int <b>x</b>;";
         SearchResult.project := "proj" |} ].
Proof. reflexivity. Qed.

(** C2 (the code departs from it): the rest-api normaliser builds the key of a
    hit but never consults it, so two hits of one file on one line are both
    returned; the html-scrape normaliser on the same duplicate keeps the first
    only. *)
Theorem rest_transform_keeps_duplicates :
  let anchor (snippet : string) : string :=
    "<a class=" +:+ quoted "s" +:+ " href=" +:+ quoted "/xref/src/a.c#7" +:+ ">"
    +:+ snippet +:+ "</a>" in
  Rest.transformSearchResults
    {| Api.time := 1%N; Api.resultCount := 2%N; Api.startDocument := 0%N;
       Api.endDocument := 1%N;
       Api.results :=
         [("/src/a.c",
           [ {| Api.line := "first"; Api.lineNumber := "7"; Api.tag := "" |};
             {| Api.line := "second"; Api.lineNumber := "7"; Api.tag := "" |} ])] |}
    "proj"
  = [ {| SearchResult.path := "/src/a.c"; SearchResult.line := Int 7;
         SearchResult.snippet := "first"; SearchResult.project := "proj" |};
      {| SearchResult.path := "/src/a.c"; SearchResult.line := Int 7;
         SearchResult.snippet := "second"; SearchResult.project := "proj" |} ]
  /\ Html.parseSearchResults (anchor "first" +:+ anchor "second") (Some "proj")
     = [ {| SearchResult.path := "src/a.c"; SearchResult.line := Int 7;
            SearchResult.snippet := "first"; SearchResult.project := "proj" |} ].
Proof. split; vm_compute; reflexivity. Qed.

Lemma filter_entryResults project entry filePath :
  filter (fun r => SearchResult.path r = filePath) (entryResults project entry)
  = if decide (fst entry = filePath) then entryResults project entry else [].
Proof.
  unfold entryResults.
  induction (filter (fun h => accepted h = true) (snd entry)) as [|hit hits IH];
    cbn [map].
  - now destruct (decide (fst entry = filePath)).
  - rewrite filter_cons, IH. cbn [hitResult SearchResult.path].
    now destruct (decide (fst entry = filePath)).
Qed.

Lemma filter_other_entries project entries filePath :
  filePath ∉ map fst entries ->
  filter (fun r => SearchResult.path r = filePath)
         (concat (map (entryResults project) entries)) = [].
Proof.
  induction entries as [|entry entries IH]; intros Hnot; cbn [map concat];
    [reflexivity|].
  cbn [map] in Hnot. apply not_elem_of_cons in Hnot as [Hne Hnot].
  rewrite filter_app, filter_entryResults, (IH Hnot).
  destruct (decide (fst entry = filePath)); [congruence|reflexivity].
Qed.

Lemma length_concat_entries project entries :
  length (concat (map (entryResults project) entries))
  = sum_list (map (fun entry => length (filter (fun h => accepted h = true) (snd entry)))
                  entries).
Proof.
  induction entries as [|entry entries IH]; cbn [map concat sum_list];
    [reflexivity|].
  rewrite length_app, IH. unfold entryResults at 1. now rewrite length_map.
Qed.

Lemma filter_accepted_all hits :
  Forall (fun h => accepted h = true) hits ->
  filter (fun h => accepted h = true) hits = hits.
Proof.
  induction 1 as [|hit hits Hhit _ IH]; [reflexivity|].
  now rewrite filter_cons_True, IH.
Qed.

(** C3 (as stated, refuted): one file with one hit record that has no line
    number (as for a match on the file path) flattens to no search hit. *)
Lemma rest_flatten_drops_incomplete_hits :
  let apiResponse :=
    {| Api.time := 1%N; Api.resultCount := 1%N; Api.startDocument := 0%N;
       Api.endDocument := 1%N;
       Api.results :=
         [("/src/a.c", [ {| Api.line := "..."; Api.lineNumber := ""; Api.tag := "" |} ])] |} in
  sum_list (map (fun entry => length (snd entry)) (Api.results apiResponse)) = 1
  /\ Rest.transformSearchResults apiResponse "proj" = [].
Proof. split; reflexivity. Qed.

(** C3 (amended): flattening returns one search hit per hit record whose
    line-number and line fields are both non-empty, and skips the others; so
    it returns the sum of the H_i when every record has both fields. With one
    entry per file path, the returned hits that carry a path are, in order,
    the accepted records listed under it, each with its parsed line number
    and its line text. *)
Theorem rest_flatten_accepted_hits :
  forall (apiResponse : Api.SearchResponse) (project : string),
    NoDup (map fst (Api.results apiResponse)) ->
    let flat := Rest.transformSearchResults apiResponse project in
    length flat
    = sum_list (map (fun entry => length (filter (fun h => accepted h = true) (snd entry)))
                    (Api.results apiResponse))
    /\ (Forall (fun entry => Forall (fun h => accepted h = true) (snd entry))
               (Api.results apiResponse) ->
        length flat
        = sum_list (map (fun entry => length (snd entry)) (Api.results apiResponse)))
    /\ (forall filePath hits,
          (filePath, hits) ∈ Api.results apiResponse ->
          filter (fun r => SearchResult.path r = filePath) flat
          = map (hitResult project filePath) (filter (fun h => accepted h = true) hits)).
Proof.
  intros apiResponse project Hkeys flat. subst flat.
  rewrite transformSearchResults_flat, length_concat_entries.
  split; [reflexivity|]. split.
  - intros Hall. f_equal. apply map_ext_Forall.
    eapply Forall_impl; [exact Hall|]. intros entry Hentry. cbn beta.
    f_equal. now apply filter_accepted_all.
  - intros filePath hits Hin.
    induction (Api.results apiResponse) as [|entry entries IH]; [inversion Hin|].
    cbn [map] in Hkeys. apply NoDup_cons in Hkeys as [Hfresh Hkeys].
    cbn [map concat]. rewrite filter_app, filter_entryResults.
    apply elem_of_cons in Hin as [Heq|Hin].
    + subst entry. cbn [fst]. rewrite decide_True by reflexivity.
      rewrite (filter_other_entries _ _ _ Hfresh), app_nil_r. reflexivity.
    + assert (Hkey : filePath ∈ map fst entries)
        by (apply list_elem_of_fmap; exists (filePath, hits); split; [reflexivity|exact Hin]).
      destruct (decide (fst entry = filePath)) as [E|_]; [congruence|].
      now apply IH.
Qed.

(** A response with two files, every record complete. *)
Lemma rest_flatten_accepted_hits_witness :
  let apiResponse :=
    {| Api.time := 1%N; Api.resultCount := 3%N; Api.startDocument := 0%N;
       Api.endDocument := 2%N;
       Api.results :=
         [("/src/a.c",
           [ {| Api.line := "int x;"; Api.lineNumber := "3"; Api.tag := "" |};
             {| Api.line := "x = 1;"; Api.lineNumber := "9"; Api.tag := "" |} ]);
          ("/src/b.c",
           [ {| Api.line := "x++;"; Api.lineNumber := "4"; Api.tag := "" |} ])] |} in
  length (Rest.transformSearchResults apiResponse "proj") = 3
  /\ filter (fun r => SearchResult.path r = "/src/a.c")
            (Rest.transformSearchResults apiResponse "proj")
     = [ {| SearchResult.path := "/src/a.c"; SearchResult.line := Int 3;
            SearchResult.snippet := "int x;"; SearchResult.project := "proj" |};
         {| SearchResult.path := "/src/a.c"; SearchResult.line := Int 9;
            SearchResult.snippet := "x = 1;"; SearchResult.project := "proj" |} ].
Proof.
  intros apiResponse.
  assert (Hkeys : NoDup (map fst (Api.results apiResponse)))
    by (cbn; apply NoDup_cons; split;
        [intros Hin; apply list_elem_of_singleton in Hin; discriminate
        |apply NoDup_singleton]).
  destruct (rest_flatten_accepted_hits apiResponse "proj" Hkeys) as (Hlen & _ & Hgroup).
  split.
  - rewrite Hlen. reflexivity.
  - rewrite (Hgroup "/src/a.c" _ (list_elem_of_here _ _)). reflexivity.
Defined.

(** ** Cross references *)

Lemma foldl_pushRef_kind symbol filePath hits refs :
  Forall (fun r => CrossReference.type r = reference) refs ->
  Forall (fun r => CrossReference.type r = reference)
         (foldl (Rest.pushRef symbol filePath) refs hits).
Proof.
  revert refs. induction hits as [|hit hits IH]; intros refs Hrefs; cbn [foldl];
    [exact Hrefs|].
  apply IH. unfold Rest.pushRef.
  destruct (truthy (Api.lineNumber hit)); [|exact Hrefs].
  apply Forall_app. split; [exact Hrefs|]. now apply Forall_singleton.
Qed.

Lemma foldl_entries_kind symbol entries refs :
  Forall (fun r => CrossReference.type r = reference) refs ->
  Forall (fun r => CrossReference.type r = reference)
         (foldl (fun refs '(filePath, hits) =>
                   foldl (Rest.pushRef symbol filePath) refs hits) refs entries).
Proof.
  revert refs. induction entries as [|[filePath hits] entries IH]; intros refs Hrefs;
    cbn [foldl]; [exact Hrefs|].
  apply IH. now apply foldl_pushRef_kind.
Qed.

(** C10: every record returned by [getCrossReferences] has the kind fixed by
    the client: [definition] from the html-scrape client, [reference] from the
    rest-api client, whatever the symbol and whatever the upstream sends; so
    one list never mixes the two kinds. *)
Theorem cross_reference_kind_fixed :
  forall (symbol : string) (project : option string),
    (forall (self : Html.OpenGrokClient) (up : Upstream string) refs,
        fst (run (Html.getCrossReferences self symbol project) up) = Return refs ->
        Forall (fun r => CrossReference.type r = definition) refs)
    /\ (forall (self : Rest.OpenGrokClient) (up : Upstream Api.SearchResponse) refs,
        fst (run (Rest.getCrossReferences self symbol project) up) = Return refs ->
        Forall (fun r => CrossReference.type r = reference) refs).
Proof.
  intros symbol project. split.
  - intros self up refs.
    unfold run, Html.getCrossReferences, try_catch, Http.bind, get, throw, ret.
    destruct (up [] _) as [r|reason]; [|discriminate].
    destruct (validateStatus (Html.client self) (status r)); [|discriminate].
    destruct (isAuthStatus (status r)); [discriminate|].
    cbn [fst]. intros [= <-]. apply Forall_map, Forall_true. reflexivity.
  - intros self up refs.
    unfold run, Rest.getCrossReferences, Rest.delegate, Api.search, Api.plain,
      try_catch, Http.bind, get, throw, ret.
    destruct (up [] _) as [r|reason]; [|discriminate].
    destruct (validateStatus (Api.client (Rest.apiClient self)) (status r));
      [|discriminate].
    destruct (negb (status r =? 200)%N); [discriminate|].
    cbn [fst]. intros [= <-]. apply foldl_entries_kind. constructor.
Qed.

(** Both clients on an upstream that lists two hits. *)
Lemma cross_reference_kind_fixed_witness :
  let anchor (line : string) : string :=
    "<a class=" +:+ quoted "s" +:+ " href=" +:+ quoted ("/xref/src/a.c#" +:+ line)
    +:+ ">hit</a>" in
  let page : Upstream string :=
    fun _ _ => Replied {| status := 200%N; data := anchor "3" +:+ anchor "9" |} in
  let json : Upstream Api.SearchResponse :=
    fun _ _ =>
      Replied {| status := 200%N;
                 data := {| Api.time := 1%N; Api.resultCount := 2%N;
                            Api.startDocument := 0%N; Api.endDocument := 1%N;
                            Api.results :=
                              [("/src/a.c",
                                [ {| Api.line := "hit"; Api.lineNumber := "3"; Api.tag := "" |};
                                  {| Api.line := "hit"; Api.lineNumber := "9"; Api.tag := "" |} ])] |} |} in
  exists refsHtml refsRest,
    length refsHtml = 2 /\ length refsRest = 2
    /\ Forall (fun r => CrossReference.type r = definition) refsHtml
    /\ Forall (fun r => CrossReference.type r = reference) refsRest.
Proof.
  intros anchor page json.
  destruct (cross_reference_kind_fixed "x" None) as [Hhtml Hrest].
  eexists. eexists.
  split; [|split; [|split;
    [apply (Hhtml (Html.new "http://grok" None None None) page); vm_compute; reflexivity
    |apply (Hrest (Rest.new "http://grok" None None None) json); vm_compute; reflexivity]]];
  reflexivity.
Defined.

(** ** File retrieval in html-scrape mode *)

(** C6: [getFileContent] makes its first call without the project segment,
    and makes a second call, with the project segment prepended, exactly when
    the first answer has status 404 and a (non-empty) project name was given;
    nothing else is ever requested. Against an upstream that answers 404 to the first
    and 200 to the second, it returns the extracted content after exactly
    these two calls, in that order. *)
Theorem html_getFileContent_calls :
  forall (b : string) (j : option CookieJar.t) (u p : option string)
         (path : string) (project : option string) (up : Upstream string),
    let self := Html.new b j u p in
    let bare := {| url := "/xref/" +:+ path; params := [] |} in
    let prefixed :=
      {| url := "/xref/" +:+ or_else project "" +:+ "/" +:+ path; params := [] |} in
    let retried :=
      match up [] bare with
      | Replied r => (status r =? 404)%N && truthy_opt project
      | Failed _ => false
      end in
    snd (run (Html.getFileContent self path project) up)
    = bare :: (if retried then [prefixed] else [])
    /\ (forall stale html,
          truthy_opt project = true ->
          up [] bare = Replied {| status := 404%N; data := stale |} ->
          up [bare] prefixed = Replied {| status := 200%N; data := html |} ->
          run (Html.getFileContent self path project) up
          = (Return {| FileContent.path := path;
                       FileContent.content := Html.extractFileContent html;
                       FileContent.project := or_else project "" |},
             [bare; prefixed])).
Proof.
  intros b j u p path project up self bare prefixed retried. subst retried. split.
  - unfold run, Html.getFileContent, try_catch, Http.bind, get, throw, ret.
    fold bare. fold prefixed.
    destruct (up [] bare) as [r|reason]; [|reflexivity].
    subst self. rewrite html_validateStatus.
    destruct ((status r =? 404)%N && truthy_opt project).
    + change ([] ++ [bare]) with [bare].
      destruct (up [bare] prefixed) as [r'|reason']; [|reflexivity].
      rewrite html_validateStatus.
      destruct (isAuthStatus (status r')); [reflexivity|].
      destruct (negb (status r' =? 200)%N); reflexivity.
    + destruct (isAuthStatus (status r)); [reflexivity|].
      destruct (negb (status r =? 200)%N); reflexivity.
  - intros stale html Hproject Hfirst Hsecond.
    unfold run, Html.getFileContent, try_catch, Http.bind, get, throw, ret.
    fold bare. fold prefixed.
    rewrite Hfirst. subst self. rewrite html_validateStatus.
    cbn [status]. rewrite Hproject. cbn [N.eqb Pos.eqb andb].
    change ([] ++ [bare]) with [bare]. rewrite Hsecond, html_validateStatus.
    reflexivity.
Qed.

(** The upstream of the scenario: 404 without the project, 200 with it. *)
Lemma html_getFileContent_calls_witness :
  let up : Upstream string :=
    fun _ req =>
      if String.eqb (url req) "/xref/src/a.c"
      then Replied {| status := 404%N; data := "not found" |}
      else Replied {| status := 200%N; data := "<pre>int x;</pre>" |} in
  run (Html.getFileContent (Html.new "http://grok/" None None None)
                           "src/a.c" (Some "proj")) up
  = (Return {| FileContent.path := "src/a.c";
               FileContent.content := "int x;";
               FileContent.project := "proj" |},
     [ {| url := "/xref/src/a.c"; params := [] |};
       {| url := "/xref/proj/src/a.c"; params := [] |} ]).
Proof.
  intros up.
  destruct (html_getFileContent_calls "http://grok/" None None None
              "src/a.c" (Some "proj") up) as [_ Hboth].
  apply (Hboth "not found" "<pre>int x;</pre>"); reflexivity.
Defined.

(** ** File-content extraction *)

Lemma startsWith_app_absent n p c rest :
  absent c n = true ->
  startsWith n (p +:+ String c rest) = true ->
  startsWith n p = true.
Proof.
  revert p. induction n as [|d n IH]; intros p Habs Hstart; [reflexivity|].
  unfold absent in Habs. cbn [allChars] in Habs.
  apply andb_true_iff in Habs as [Hd Habs].
  destruct p as [|e p]; cbn [String.append startsWith] in *.
  - apply andb_true_iff in Hstart as [Hde _]. rewrite Hde in Hd. discriminate.
  - apply andb_true_iff in Hstart as [Hde Hstart]. rewrite Hde. cbn [andb].
    now apply IH.
Qed.

Lemma drop_app n rest : drop (String.length n) (n +:+ rest) = rest.
Proof. induction n as [|c n IH]; [now destruct rest|exact IH]. Qed.

(** A needle whose first character does not occur again in it cannot start
    inside a text free of it and end in a copy of itself put behind. *)
Lemma startsWith_no_straddle c n e before rest :
  absent c n = true ->
  startsWith (String c n) (String e before) = false ->
  startsWith (String c n) (String e (before +:+ String c n +:+ rest)) = false.
Proof.
  intros Habs Hhere.
  destruct (startsWith (String c n) (String e (before +:+ String c n +:+ rest)))
    eqn:Hstraddle; [|reflexivity].
  cbn [startsWith] in Hhere, Hstraddle.
  apply andb_true_iff in Hstraddle as [Hce Hstraddle]. rewrite Hce in Hhere.
  cbn [andb] in Hhere.
  now rewrite (startsWith_app_absent _ _ _ _ Habs Hstraddle) in Hhere.
Qed.

(** The first occurrence of such a needle: a text free of the needle, then
    the needle. *)
Lemma cut_first c n before rest :
  absent c n = true ->
  includes (String c n) before = false ->
  cut (String c n) (before +:+ String c n +:+ rest) = Some (before, rest).
Proof.
  intros Habs. unfold includes.
  induction before as [|e before IH]; intros Hfree.
  - change ("" +:+ String c n +:+ rest) with (String c (n +:+ rest)).
    cbn [cut]. change (String c (n +:+ rest)) with (String c n +:+ rest).
    now rewrite startsWith_app, drop_app.
  - change (String e before +:+ String c n +:+ rest)
      with (String e (before +:+ String c n +:+ rest)).
    cbn [cut] in *.
    destruct (startsWith (String c n) (String e before)) eqn:Hhere; [discriminate|].
    destruct (cut (String c n) before) as [[? ?]|] eqn:Hlater; [discriminate|].
    rewrite (startsWith_no_straddle _ _ _ _ _ Habs Hhere). now rewrite IH.
Qed.

Lemma drop_app_char n c rest :
  drop (S (String.length n)) (n +:+ String c rest) = rest.
Proof. induction n as [|d n IH]; [now destruct rest|exact IH]. Qed.

(** Passing [skip] characters is dropping them. *)
Lemma replaceFrom_skip skip pat rep s :
  replaceFrom skip pat rep s = replaceFrom 0 pat rep (drop skip s).
Proof.
  revert s. induction skip as [|skip IH]; intros s; [now destruct s|].
  destruct s as [|c s]; [reflexivity|]. cbn [replaceFrom drop]. apply IH.
Qed.

(** A text free of the pattern is left as it is. *)
Lemma replaceAll_free pat rep s :
  includes pat s = false -> replaceAll pat rep s = s.
Proof.
  unfold replaceAll, includes. induction s as [|c s IH]; intros Hfree; [reflexivity|].
  cbn [cut replaceFrom] in *.
  destruct (startsWith pat (String c s)); [discriminate|].
  destruct (cut pat s) as [[? ?]|]; [discriminate|]. now rewrite IH.
Qed.

(** The first occurrence of the pattern is replaced and the scan goes on
    behind it. *)
Lemma replaceAll_first c n rep before rest :
  absent c n = true ->
  includes (String c n) before = false ->
  replaceAll (String c n) rep (before +:+ String c n +:+ rest)
  = before +:+ rep +:+ replaceAll (String c n) rep rest.
Proof.
  intros Habs. unfold replaceAll, includes.
  induction before as [|e before IH]; intros Hfree.
  - change ("" +:+ String c n +:+ rest) with (String c (n +:+ rest)).
    cbn [replaceFrom]. change (String c (n +:+ rest)) with (String c n +:+ rest).
    rewrite startsWith_app, replaceFrom_skip. cbn [String.length].
    now rewrite Nat.sub_succ, Nat.sub_0_r, drop_app.
  - change (String e before +:+ String c n +:+ rest)
      with (String e (before +:+ String c n +:+ rest)).
    cbn [cut replaceFrom] in *.
    destruct (startsWith (String c n) (String e before)) eqn:Hhere; [discriminate|].
    destruct (cut (String c n) before) as [[? ?]|] eqn:Hlater; [discriminate|].
    rewrite (startsWith_no_straddle _ _ _ _ _ Habs Hhere). now rewrite IH.
Qed.

Lemma stripTagsFrom_skip skip s :
  Html.stripTagsFrom skip s = Html.stripTagsFrom 0 (drop skip s).
Proof.
  revert s. induction skip as [|skip IH]; intros s; [now destruct s|].
  destruct s as [|c s]; [reflexivity|]. cbn [Html.stripTagsFrom drop]. apply IH.
Qed.

Lemma indexOfChar_first c t rest :
  absent c t = true ->
  Html.indexOfChar c (t +:+ String c rest) = Some (String.length t).
Proof.
  induction t as [|d t IH]; intros Habs.
  - change ("" +:+ String c rest) with (String c rest).
    cbn [Html.indexOfChar]. now rewrite Ascii.eqb_refl.
  - change (String d t +:+ String c rest) with (String d (t +:+ String c rest)).
    cbn [Html.indexOfChar].
    unfold absent in Habs. cbn [allChars] in Habs.
    apply andb_true_iff in Habs as [Hd Habs].
    destruct (Ascii.eqb d c); [discriminate|]. now rewrite (IH Habs).
Qed.

(** A tag is removed: text without [<], then [<], a non-empty name without
    [>], and [>]; the scan goes on behind it. *)
Lemma stripTags_first before x name rest :
  absent "<" before = true ->
  absent ">" (String x name) = true ->
  Html.stripTags (before +:+ "<" +:+ String x name +:+ ">" +:+ rest)
  = before +:+ Html.stripTags rest.
Proof.
  intros Hbefore Hname. unfold Html.stripTags.
  induction before as [|e before IH].
  - change ("" +:+ "<" +:+ String x name +:+ ">" +:+ rest)
      with (String "<" (String x name +:+ String ">" rest)).
    cbn [Html.stripTagsFrom]. rewrite Ascii.eqb_refl.
    rewrite (indexOfChar_first ">" (String x name) rest Hname).
    cbn [String.length]. rewrite stripTagsFrom_skip.
    change (drop (S (S (String.length name))) (String x name +:+ String ">" rest))
      with (drop (S (String.length name)) (name +:+ String ">" rest)).
    now rewrite drop_app_char.
  - unfold absent in Hbefore. cbn [allChars] in Hbefore.
    apply andb_true_iff in Hbefore as [He Hbefore].
    change (String e before +:+ "<" +:+ String x name +:+ ">" +:+ rest)
      with (String e (before +:+ "<" +:+ String x name +:+ ">" +:+ rest)).
    cbn [Html.stripTagsFrom].
    destruct (Ascii.eqb e "<"); [discriminate|].
    change (String e before +:+ Html.stripTagsFrom 0 rest)
      with (String e (before +:+ Html.stripTagsFrom 0 rest)).
    f_equal. now apply IH.
Qed.

(** The order of the three replacements shows on an escaped ampersand: it
    is reversed last, so what it uncovers is not reversed again. *)
Example unescape_ampersand_last :
  Html.extractFileContent "<pre>&amp;lt;b&amp;gt;</pre>" = "&lt;b&gt;".
Proof. reflexivity. Qed.

(** C7 (as stated, refuted): the returned content is not the inner text with
    tags removed and entities reversed when that text starts or ends with
    white space, which is trimmed as well. *)
Lemma extract_trims_whitespace :
  Html.matchPre "<pre> x </pre>" = Some " x "
  /\ unescape (Html.stripTags " x ") = " x "
  /\ Html.extractFileContent "<pre> x </pre>" = "x".
Proof. repeat split; reflexivity. Qed.

(** C7 (amended): when the first [<pre] of the page opens a block, that is,
    it is followed by attributes without [>], a [>], an inner text without
    the closing tag, and the closing tag, the returned content is that inner
    text with the tags stripped, then [&lt;], [&gt;] and [&amp;] reversed in
    that order, then trimmed of white space at both ends. A page whose first
    block is [<pre>Hello &amp; &lt;world&gt;</pre>] gives [Hello & <world>]. *)
Theorem extractFileContent_first_pre :
  forall before attrs inner after : string,
    includes "<pre" before = false ->
    includes ">" attrs = false ->
    includes "</pre>" inner = false ->
    Html.extractFileContent
      (before +:+ "<pre" +:+ attrs +:+ ">" +:+ inner +:+ "</pre>" +:+ after)
    = trim (unescape (Html.stripTags inner))
    /\ Html.extractFileContent
         (before +:+ "<pre>Hello &amp; &lt;world&gt;</pre>" +:+ after)
       = "Hello & <world>".
Proof.
  intros before attrs inner after Hbefore Hattrs Hinner.
  assert (Hblock : forall attrs' inner',
             includes ">" attrs' = false ->
             includes "</pre>" inner' = false ->
             Html.matchPre
               (before +:+ "<pre" +:+ attrs' +:+ ">" +:+ inner' +:+ "</pre>" +:+ after)
             = Some inner').
  { intros attrs' inner' Ha Hi. unfold Html.matchPre.
    rewrite (cut_first "<" "pre" before _ eq_refl Hbefore). cbn [mbind option_bind].
    rewrite (cut_first ">" "" attrs' _ eq_refl Ha). cbn [mbind option_bind].
    rewrite (cut_first "<" "/pre>" inner' _ eq_refl Hi). reflexivity. }
  split.
  - unfold Html.extractFileContent. now rewrite (Hblock attrs inner Hattrs Hinner).
  - unfold Html.extractFileContent.
    change (before +:+ "<pre>Hello &amp; &lt;world&gt;</pre>" +:+ after)
      with (before +:+ "<pre" +:+ "" +:+ ">" +:+ "Hello &amp; &lt;world&gt;"
            +:+ "</pre>" +:+ after).
    now rewrite (Hblock "" "Hello &amp; &lt;world&gt;" eq_refl eq_refl).
Qed.

(** A page with a heading before the block and a footer after it. *)
Lemma extractFileContent_first_pre_witness :
  Html.extractFileContent
    ("<h1>a.c</h1>" +:+ "<pre" +:+ " class=src" +:+ ">"
     +:+ " <b>int</b> x &lt; y &amp;&amp; y &gt; z;  " +:+ "</pre>" +:+ "<hr>")
  = "int x < y && y > z;"
  /\ Html.extractFileContent
       ("<h1>a.c</h1>" +:+ "<pre>Hello &amp; &lt;world&gt;</pre>" +:+ "<hr>")
     = "Hello & <world>".
Proof.
  destruct (extractFileContent_first_pre
              "<h1>a.c</h1>" " class=src" " <b>int</b> x &lt; y &amp;&amp; y &gt; z;  "
              "<hr>" eq_refl eq_refl eq_refl) as [Hgeneral Hhello].
  split; [rewrite Hgeneral; reflexivity|exact Hhello].
Defined.

(** ** The html-scrape normaliser *)

Lemma addMatch_cases project seen results m :
  Html.addMatch project (seen, results) m
  = if decide (resultKey (matchResult project m) ∈ seen) then (seen, results)
    else ({[ resultKey (matchResult project m) ]} ∪ seen,
          results ++ [matchResult project m]).
Proof. reflexivity. Qed.

Lemma addMatch_invariant project st m :
  loopInvariant st -> loopInvariant (Html.addMatch project st m).
Proof.
  destruct st as [seen results]. intros [Hseen Hnodup].
  rewrite addMatch_cases.
  destruct (decide (resultKey (matchResult project m) ∈ seen)) as [Hin|Hout];
    [now split|].
  unfold loopInvariant. cbn [fst snd] in *. split.
  - intros k. rewrite List.map_app, elem_of_app, elem_of_union, elem_of_singleton.
    cbn [map]. rewrite list_elem_of_singleton, Hseen. tauto.
  - rewrite List.map_app. apply NoDup_app. split; [exact Hnodup|]. split.
    + intros k Hk. cbn [map]. rewrite list_elem_of_singleton. intros ->.
      apply Hout, Hseen, Hk.
    + apply NoDup_singleton.
Qed.

Lemma foldl_addMatch_invariant project ms st :
  loopInvariant st -> loopInvariant (foldl (Html.addMatch project) st ms).
Proof.
  revert st. induction ms as [|m ms IH]; intros st Hst; [exact Hst|].
  cbn [foldl]. now apply IH, addMatch_invariant.
Qed.

(** Hits are only ever appended. *)
Lemma foldl_addMatch_keeps project ms st r :
  r ∈ snd st -> r ∈ snd (foldl (Html.addMatch project) st ms).
Proof.
  revert st. induction ms as [|m ms IH]; intros [seen results] Hr; [exact Hr|].
  cbn [foldl]. apply IH. rewrite addMatch_cases.
  destruct (decide _); [exact Hr|]. cbn [snd] in *. apply elem_of_app. now left.
Qed.

(** The keys seen are those of the matches processed. *)
Lemma foldl_addMatch_seen project ms st k :
  k ∈ fst (foldl (Html.addMatch project) st ms) ->
  k ∈ fst st \/ k ∈ map (fun m => resultKey (matchResult project m)) ms.
Proof.
  revert st. induction ms as [|m ms IH]; intros [seen results] Hk; [now left|].
  cbn [foldl] in Hk. apply IH in Hk as [Hk|Hk].
  - rewrite addMatch_cases in Hk. destruct (decide _); [now left|].
    cbn [fst] in Hk. apply elem_of_union in Hk as [Hk|Hk]; [|now left].
    apply elem_of_singleton in Hk as ->. right. cbn [map]. apply list_elem_of_here.
  - right. cbn [map]. now apply list_elem_of_further.
Qed.

(** No two hits of a page share path and line: the html-scrape half of the
    uniqueness invariant. *)
Theorem html_parse_unique (html : string) (project : option string) :
  NoDup (map (fun r => (SearchResult.path r, SearchResult.line r))
             (Html.parseSearchResults html project)).
Proof.
  unfold Html.parseSearchResults.
  destruct (foldl_addMatch_invariant project (Html.execAll 0 html) (∅, []))
    as [_ Hnodup].
  { split; [|constructor]. intros k. cbn. rewrite elem_of_nil. set_solver. }
  set (results := snd _) in *.
  apply (NoDup_fmap_1 (fun pl : string * jsnum => fst pl +:+ ":" +:+ show (snd pl))).
  rewrite <- list_fmap_compose. exact Hnodup.
Qed.

(** The first match of a key is the one kept, snippet included. *)
Theorem html_parse_first_wins (html : string) (project : option string)
    (earlier later : list Html.Match) (m : Html.Match) :
  Html.execAll 0 html = earlier ++ m :: later ->
  resultKey (matchResult project m)
    ∉ map (fun m' => resultKey (matchResult project m')) earlier ->
  matchResult project m ∈ Html.parseSearchResults html project.
Proof.
  intros Hmatches Hfresh. unfold Html.parseSearchResults.
  rewrite Hmatches, foldl_app. cbn [foldl].
  apply foldl_addMatch_keeps.
  destruct (foldl (Html.addMatch project) (∅, []) earlier) as [seen results] eqn:Hst.
  rewrite addMatch_cases.
  destruct (decide (resultKey (matchResult project m) ∈ seen)) as [Hin|_].
  - exfalso. apply Hfresh.
    destruct (foldl_addMatch_seen project earlier (∅, []) (resultKey (matchResult project m)))
      as [Hempty|Hearlier]; [now rewrite Hst| |exact Hearlier].
    cbn [fst] in Hempty. set_solver.
  - cbn [snd]. apply elem_of_app. right. apply list_elem_of_here.
Qed.

(** * Further properties of the code *)

(** ** Numbers and their text *)








(** ** Hits scraped from a page *)














Lemma execAll_no_anchor html :
  includes "<a" html = false -> forall skip, Html.execAll skip html = [].
Proof.
  unfold includes. induction html as [|c html IH]; intros Hfree skip; [reflexivity|].
  cbn [cut] in Hfree.
  destruct (startsWith "<a" (String c html)) eqn:Hstart; [discriminate|].
  destruct (cut "<a" html) as [[? ?]|] eqn:Hcut; [discriminate|].
  cbn [Html.execAll]. destruct skip as [|k]; [|now apply IH].
  unfold Html.matchHere, Html.expect. rewrite Hstart. cbn [mbind option_bind].
  now apply IH.
Qed.

(** A page without any anchor gives an empty list of hits, not a failure. *)
Theorem html_parse_no_anchor (html : string) (project : option string) :
  includes "<a" html = false -> Html.parseSearchResults html project = [].
Proof.
  intros Hfree. unfold Html.parseSearchResults.
  now rewrite (execAll_no_anchor _ Hfree).
Qed.

Lemma html_parse_no_anchor_witness :
  Html.parseSearchResults "<html><body><p>No hits.</p></body></html>" (Some "proj") = [].
Proof. apply html_parse_no_anchor. reflexivity. Defined.

Lemma html_parse_first_wins_witness :
  let anchor (snippet : string) : string :=
    "<a class=" +:+ quoted "s" +:+ " href=" +:+ quoted "/xref/src/a.c#7" +:+ ">"
    +:+ snippet +:+ "</a>" in
  {| SearchResult.path := "src/a.c"; SearchResult.line := Int 7;
     SearchResult.snippet := "first"; SearchResult.project := "proj" |}
  ∈ Html.parseSearchResults (anchor "first" +:+ "<br>" +:+ anchor "second") (Some "proj").
Proof.
  intros anchor.
  apply (html_parse_first_wins _ (Some "proj") []
           [ {| Html.group1 := "src/a.c"; Html.group2 := "7"; Html.group3 := "second" |} ]
           {| Html.group1 := "src/a.c"; Html.group2 := "7"; Html.group3 := "first" |}).
  - vm_compute. reflexivity.
  - cbn [map]. apply not_elem_of_nil.
Defined.

(** ** Extracted file content *)







Lemma trimEnd_idem s : trimEnd (trimEnd s) = trimEnd s.
Proof.
  induction s as [|c s IH]; [reflexivity|]. cbn [trimEnd].
  destruct (trimEnd s) as [|e t] eqn:E.
  - destruct (isSpace c) eqn:Hc; [reflexivity|]. cbn [trimEnd]. now rewrite Hc.
  - cbn [trimEnd]. cbn [trimEnd] in IH.
    destruct (match trimEnd t with
              | "" => if isSpace e then "" else String e ""
              | String a s0 => String e (String a s0)
              end) eqn:E'; [discriminate|]. now rewrite IH.
Qed.

Lemma trimEnd_keeps_head c s :
  isSpace c = false -> exists t, trimEnd (String c s) = String c t.
Proof.
  intros Hc. cbn [trimEnd]. destruct (trimEnd s) as [|e t].
  - rewrite Hc. now exists EmptyString.
  - now exists (String e t).
Qed.

Lemma trimStart_head s :
  trimStart s = EmptyString
  \/ exists c t, trimStart s = String c t /\ isSpace c = false.
Proof.
  induction s as [|c s IH]; [now left|]. cbn [trimStart].
  destruct (isSpace c) eqn:Hc; [exact IH|]. right. now exists c, s.
Qed.

Lemma trim_idem s : trim (trim s) = trim s.
Proof.
  unfold trim. destruct (trimStart_head s) as [->|(c & t & -> & Hc)]; [reflexivity|].
  destruct (trimEnd_keeps_head c t Hc) as [t' E]. rewrite E.
  cbn [trimStart]. rewrite Hc, <- E. apply trimEnd_idem.
Qed.

(** The content returned has no white space at either end: trimming it
    again changes nothing. *)
Theorem extractFileContent_trimmed (html : string) :
  trim (Html.extractFileContent html) = Html.extractFileContent html.
Proof.
  unfold Html.extractFileContent.
  destruct (Html.matchPre html); [apply trim_idem|reflexivity].
Qed.

Lemma length_drop_le k s : String.length (drop k s) <= String.length s.
Proof.
  revert s. induction k as [|k IH]; intros s; [now destruct s|].
  destruct s as [|c s]; [reflexivity|]. cbn [drop String.length].
  specialize (IH s). lia.
Qed.

Lemma stripTagsFrom_no_gt s :
  Html.indexOfChar ">" s = None ->
  forall skip, Html.indexOfChar ">" (Html.stripTagsFrom skip s) = None.
Proof.
  induction s as [|c s IH]; intros Hnone skip; [reflexivity|].
  cbn [Html.indexOfChar] in Hnone.
  destruct (Ascii.eqb c ">") eqn:Hc; [discriminate|].
  destruct (Html.indexOfChar ">" s) eqn:Hs; [discriminate|].
  cbn [Html.stripTagsFrom]. destruct skip as [|k]; [|now apply IH].
  rewrite Hs.
  assert (Hkeep : Html.indexOfChar ">" (String c (Html.stripTagsFrom 0 s)) = None)
    by (cbn [Html.indexOfChar]; now rewrite Hc, (IH eq_refl 0)).
  now destruct (Ascii.eqb c "<").
Qed.

(** After the tags are stripped, the tag pattern matches nowhere. *)
Theorem stripTags_leaves_no_tag (s : string) : hasTag (Html.stripTags s) = false.
Proof.
  unfold Html.stripTags.
  assert (Hgen : forall n s, String.length s <= n ->
                             hasTag (Html.stripTagsFrom 0 s) = false).
  { induction n as [|n IH]; intros [|c s'] Hlen; try reflexivity;
      cbn [String.length] in Hlen; [lia|].
    assert (Hkept : tagAt (String c (Html.stripTagsFrom 0 s')) = false ->
                    hasTag (String c (Html.stripTagsFrom 0 s')) = false).
    { intros Hhere. cbn [hasTag]. rewrite Hhere. apply IH. lia. }
    cbn [Html.stripTagsFrom].
    destruct (Ascii.eqb c "<") eqn:Hc; [|apply Hkept; cbn [tagAt]; now rewrite Hc].
    destruct (Html.indexOfChar ">" s') as [[|k]|] eqn:Hgt.
    - apply Hkept. cbn [tagAt]. rewrite Hc.
      destruct s' as [|e s'']; [discriminate|]. cbn [Html.indexOfChar] in Hgt.
      destruct (Ascii.eqb e ">") eqn:He;
        [|destruct (Html.indexOfChar ">" s''); discriminate].
      apply Ascii.eqb_eq in He as ->. reflexivity.
    - rewrite stripTagsFrom_skip. apply IH.
      pose proof (length_drop_le (S (S k)) s'). lia.
    - apply Hkept. cbn [tagAt]. now rewrite Hc, (stripTagsFrom_no_gt _ Hgt 0). }
  exact (Hgen _ s (le_n _)).
Qed.

(** ** Searching *)

(** [search] makes no request at all for an empty project, and exactly one
    otherwise: to [/search], with the text under the key of the search type
    ([defs] and [refs] in html-scrape mode, [def] and [symbol] in rest-api
    mode), whatever the answer is. *)
Theorem search_requests :
  forall (query project : string) (searchType : SearchType) (language : option string)
         (maxResults : Z),
    (forall (self : Html.OpenGrokClient) (up : Upstream string),
        snd (run (Html.search self query project (Some searchType) language
                              (Some maxResults)) up)
        = if truthy project
          then [ {| url := "/search";
                    params := [("project", project); ("xrd", ""); ("nn", "1");
                               (htmlSearchKey searchType, query);
                               ("type", or_else language "")] |} ]
          else [])
    /\ (forall (self : Rest.OpenGrokClient) (up : Upstream Api.SearchResponse),
        snd (run (Rest.search self query project (Some searchType) language
                              (Some maxResults)) up)
        = if truthy project
          then [ {| url := "/search";
                    params := [(restSearchKey searchType, query)]
                              ++ (if truthy_opt language
                                  then [("type", or_else language "")] else [])
                              ++ [("projects", project);
                                  ("maxresults", show (Int maxResults))] |} ]
          else []).
Proof.
  intros query project searchType language maxResults. split.
  - intros self up. unfold run, Html.search. cbn [default].
    destruct (truthy project); cbn [negb]; [|reflexivity].
    unfold try_catch, Http.bind, get, throw, ret.
    match goal with |- context [up [] ?q] => destruct (up [] q) as [r|reason] end.
    + destruct (validateStatus (Html.client self) (status r));
        [destruct (isAuthStatus (status r)); [|destruct (negb (status r =? 200)%N)]|];
        destruct searchType; reflexivity.
    + destruct searchType; reflexivity.
  - intros self up. unfold run, Rest.search. cbn [default].
    destruct (truthy project); cbn [negb]; [|reflexivity].
    unfold Rest.delegate, Api.search, Api.plain, try_catch, Http.bind, get, throw, ret.
    match goal with |- context [up [] ?q] => destruct (up [] q) as [r|reason] end.
    + destruct (validateStatus (Api.client (Rest.apiClient self)) (status r));
        [destruct (negb (status r =? 200)%N)|];
        destruct searchType, language as [l|]; try destruct (truthy l) eqn:Hl;
        cbn [truthy_opt or_else Api.param restSearchKey app fst snd];
        rewrite ?Hl; reflexivity.
    + destruct searchType, language as [l|]; try destruct (truthy l) eqn:Hl;
        cbn [truthy_opt or_else Api.param restSearchKey app fst snd];
        rewrite ?Hl; reflexivity.
Qed.

Lemma length_slice0 {A} (n : Z) (l : list A) :
  (0 <= n)%Z -> length (slice0 n l) <= Z.to_nat n.
Proof.
  intros Hn. unfold slice0. destruct (Z.ltb_spec n 0); [lia|].
  rewrite length_take. lia.
Qed.

(** [search] never returns more hits than the limit asked for (50 when none
    is given), in either client. *)
Theorem search_respects_limit :
  forall (query project : string) (searchType : option SearchType)
         (language : option string) (maxResults : option Z),
    (0 <= default 50 maxResults)%Z ->
    (forall (self : Html.OpenGrokClient) (up : Upstream string) hits,
        fst (run (Html.search self query project searchType language maxResults) up)
        = Return hits ->
        length hits <= Z.to_nat (default 50%Z maxResults))
    /\ (forall (self : Rest.OpenGrokClient) (up : Upstream Api.SearchResponse) hits,
        fst (run (Rest.search self query project searchType language maxResults) up)
        = Return hits ->
        length hits <= Z.to_nat (default 50%Z maxResults)).
Proof.
  intros query project searchType language maxResults Hlimit. split.
  - intros self up hits. unfold run, Html.search.
    destruct (truthy project); cbn [negb]; [|discriminate].
    unfold try_catch, Http.bind, get, throw, ret.
    destruct (up [] _) as [r|reason]; [|discriminate].
    destruct (validateStatus (Html.client self) (status r)); [|discriminate].
    destruct (isAuthStatus (status r)); [discriminate|].
    destruct (negb (status r =? 200)%N); [discriminate|].
    cbn [fst]. intros [= <-]. now apply length_slice0.
  - intros self up hits. unfold run, Rest.search.
    destruct (truthy project); cbn [negb]; [|discriminate].
    unfold Rest.delegate, Api.search, Api.plain, try_catch, Http.bind, get, throw, ret.
    destruct (up [] _) as [r|reason]; [|discriminate].
    destruct (validateStatus (Api.client (Rest.apiClient self)) (status r));
      [|discriminate].
    destruct (negb (status r =? 200)%N); [discriminate|].
    cbn [fst]. intros [= <-]. now apply length_slice0.
Qed.

Lemma search_respects_limit_witness :
  let anchor (line : string) : string :=
    "<a class=" +:+ quoted "s" +:+ " href=" +:+ quoted ("/xref/src/a.c#" +:+ line)
    +:+ ">hit</a>" in
  let page : Upstream string :=
    fun _ _ => Replied {| status := 200%N;
                          data := anchor "1" +:+ anchor "2" +:+ anchor "3" |} in
  let hit (n : Z) : SearchResult.t :=
    {| SearchResult.path := "src/a.c"; SearchResult.line := Int n;
       SearchResult.snippet := "hit"; SearchResult.project := "proj" |} in
  fst (run (Html.search (Html.new "http://grok" None None None) "x" "proj"
                        None None (Some 2%Z)) page) = Return [hit 1%Z; hit 2%Z]
  /\ length [hit 1%Z; hit 2%Z] <= 2.
Proof.
  intros anchor page hit.
  assert (Hrun : fst (run (Html.search (Html.new "http://grok" None None None) "x" "proj"
                                       None None (Some 2%Z)) page)
                 = Return [hit 1%Z; hit 2%Z]) by (vm_compute; reflexivity).
  split; [exact Hrun|].
  assert (Hlimit : (0 <= default 50 (Some 2))%Z) by (cbn; lia).
  exact (proj1 (search_respects_limit "x" "proj" None None (Some 2%Z) Hlimit)
               _ page _ Hrun).
Defined.

(** ** Cross references and project list in html-scrape mode *)



(** Every operation of the html-scrape client answers 401 and 403 with the
    authentication failure, whatever the body is. *)
Theorem html_operations_report_auth_failure :
  forall (b : string) (j : option CookieJar.t) (u p : option string)
         (query project path symbol : string) (searchType : option SearchType)
         (language scope : option string) (maxResults : option Z)
         (up : Upstream string) (r : Response string),
    truthy project = true ->
    (forall log req, up log req = Replied r) ->
    isAuthStatus (status r) = true ->
    let self := Html.new b j u p in
    authenticationFailed
      (fst (run (Html.search self query project searchType language maxResults) up))
    = true
    /\ authenticationFailed (fst (run (Html.getFileContent self path scope) up)) = true
    /\ authenticationFailed (fst (run (Html.getCrossReferences self symbol scope) up))
       = true
    /\ authenticationFailed (fst (run (HtmlProjects.listProjects self) up)) = true.
Proof.
  intros b j u p query project path symbol searchType language scope maxResults up r
         Hproject Hup Hauth self.
  split; [|split; [|split]].
  - now apply (html_search_auth _ _ _ _ _ _ _ _ _ _ r).
  - now apply (html_getFileContent_auth _ _ _ _ _ _ _ r).
  - now apply (html_getCrossReferences_auth _ _ _ _ _ _ _ r).
  - now apply (html_listProjects_auth _ _ _ _ _ _ r).
Qed.

Lemma html_operations_report_auth_failure_witness :
  let up : Upstream string :=
    fun _ _ => Replied {| status := 403%N; data := "<html>Forbidden</html>" |} in
  let self := Html.new "http://grok" None None None in
  authenticationFailed (fst (run (Html.search self "main" "proj" None None None) up))
  = true
  /\ authenticationFailed (fst (run (Html.getFileContent self "src/a.c" None) up)) = true
  /\ authenticationFailed (fst (run (Html.getCrossReferences self "main" None) up)) = true
  /\ authenticationFailed (fst (run (HtmlProjects.listProjects self) up)) = true.
Proof.
  intros up self.
  exact (html_operations_report_auth_failure
           "http://grok" None None None "main" "proj" "src/a.c" "main" None None None
           None up {| status := 403%N; data := "<html>Forbidden</html>" |}
           eq_refl (fun _ _ => eq_refl) eq_refl).
Defined.

Lemma addProject_names projects m :
  Forall (fun name => truthy name = true /\ trim name = name) projects ->
  Forall (fun name => truthy name = true /\ trim name = name)
         (HtmlProjects.addProject projects m).
Proof.
  intros Hall. unfold HtmlProjects.addProject.
  set (projectName := if truthy (fst m) then fst m else snd m).
  destruct (truthy projectName && negb (String.eqb (trim projectName) EmptyString))
    eqn:Hkeep; [|exact Hall].
  apply andb_true_iff in Hkeep as [_ Hne].
  apply Forall_app. split; [exact Hall|]. apply Forall_singleton. split.
  - destruct (trim projectName); [discriminate|reflexivity].
  - apply trim_idem.
Qed.

(** Every project name scraped from the page is non-empty and has no white
    space at either end: options whose name is empty or blank are left out. *)
Theorem parseProjects_names (html : string) :
  Forall (fun name => truthy name = true /\ trim name = name)
         (HtmlProjects.parseProjects html).
Proof.
  unfold HtmlProjects.parseProjects.
  assert (Hgen : forall ms projects,
             Forall (fun name => truthy name = true /\ trim name = name) projects ->
             Forall (fun name => truthy name = true /\ trim name = name)
                    (foldl HtmlProjects.addProject projects ms)).
  { induction ms as [|m ms IH]; intros projects Hall; [exact Hall|].
    cbn [foldl]. now apply IH, addProject_names. }
  apply Hgen. constructor.
Qed.

(** The value of an option is the project name; its label is used only when
    the value is empty. *)
Example parseProjects_value_before_label :
  HtmlProjects.parseProjects
    ("<select><option value=" +:+ quoted "alpha" +:+ ">Alpha project</option>"
     +:+ "<option selected value=" +:+ quoted "" +:+ "> beta </option>"
     +:+ "<option value=" +:+ quoted "  " +:+ ">gamma</option></select>")
  = ["alpha"; "beta"].
Proof. vm_compute. reflexivity. Qed.

(** ** The read operations of the rest-api client *)

Lemma guarded_run {D} b j u p what req (up : Upstream D) log :
  Api.guarded (Api.new b j u p) what req up log
  = (match up log req with
     | Failed reason => Throw (what +:+ ": " +:+ reason)
     | Replied r =>
         if (200 <=? status r)%N && (status r <? 500)%N then
           if isAuthStatus (status r) then
             Throw (what +:+ ": " +:+ "Authentication failed (" +:+ showN (status r)
                    +:+ "). Update OPENGROK_COOKIES.")
           else if (status r =? 200)%N then Return (data r)
           else Throw (what +:+ ": " +:+ what +:+ ": " +:+ showN (status r))
         else Throw (what +:+ ": " +:+ "Request failed with status code "
                     +:+ showN (status r))
     end, log ++ [req]).
Proof.
  unfold Api.guarded, try_catch, Http.bind, get, throw, ret.
  destruct (up log req) as [r|reason]; [|reflexivity].
  rewrite api_validateStatus.
  destruct ((200 <=? status r)%N && (status r <? 500)%N); [|reflexivity].
  destruct (isAuthStatus (status r)); [reflexivity|].
  destruct (status r =? 200)%N; reflexivity.
Qed.

Lemma plain_run {D} b j u p failure what req (up : Upstream D) log :
  Api.plain (Api.new b j u p) failure what req up log
  = (match up log req with
     | Failed reason => Throw (what +:+ ": " +:+ reason)
     | Replied r =>
         if (200 <=? status r)%N && (status r <? 500)%N then
           if (status r =? 200)%N then Return (data r)
           else Throw (what +:+ ": " +:+ failure +:+ showN (status r))
         else Throw (what +:+ ": " +:+ "Request failed with status code "
                     +:+ showN (status r))
     end, log ++ [req]).
Proof.
  unfold Api.plain, try_catch, Http.bind, get, throw, ret.
  destruct (up log req) as [r|reason]; [|reflexivity].
  rewrite api_validateStatus.
  destruct ((200 <=? status r)%N && (status r <? 500)%N); [|reflexivity].
  destruct (status r =? 200)%N; reflexivity.
Qed.

(** A read operation of the rest-api facade (every one that delegates to a
    status-checked call of the REST client: annotation, file content, genre
    and definitions, history, directory listing, projects and their
    repositories and files, index time, version) makes exactly one request
    and returns exactly when the answer has status 200, and then the body
    unchanged. *)
Theorem rest_read_returns_on_200_only :
  forall (D : Type) (b : string) (j : option CookieJar.t) (u p : option string)
         (what what' failure : string) (req : Request) (up : Upstream D),
    let self := Api.new b j u p in
    let checked := Rest.delegate what (Api.guarded self what' req) in
    let unchecked := Rest.delegate what (Api.plain self failure what' req) in
    snd (run checked up) = [req]
    /\ snd (run unchecked up) = [req]
    /\ (forall d, fst (run checked up) = Return d
                  <-> exists r, up [] req = Replied r /\ status r = 200%N /\ data r = d)
    /\ (forall d, fst (run unchecked up) = Return d
                  <-> exists r, up [] req = Replied r /\ status r = 200%N /\ data r = d).
Proof.
  intros D b j u p what what' failure req up self checked unchecked.
  subst checked unchecked self. unfold run, Rest.delegate, try_catch.
  rewrite guarded_run, plain_run.
  assert (H200 : forall r : Response D, status r = 200%N ->
             (200 <=? status r)%N && (status r <? 500)%N = true
             /\ isAuthStatus (status r) = false /\ (status r =? 200)%N = true)
    by (intros r ->; repeat split).
  destruct (up [] req) as [r|reason].
  - destruct ((200 <=? status r)%N && (status r <? 500)%N) eqn:Hv;
      destruct (isAuthStatus (status r)) eqn:Ha;
      destruct (N.eqb_spec (status r) 200) as [E|E];
      cbn [fst snd throw]; repeat split;
      try (intros [= <-]; now exists r);
      try discriminate;
      try (intros (r' & [= <-] & E' & Hd); destruct (H200 _ E') as (? & ? & ?);
           try congruence; now subst).
  - cbn [fst snd throw]. repeat split; try discriminate;
      intros (r' & Hr & _); discriminate.
Qed.

(** How such an operation fails on a status that is neither 200 nor 401 nor
    403: for a status from 200 to 499 its own message names the status, behind
    the prefix of the call twice and that of the facade; any other status is
    refused by the HTTP client, whose message is passed on instead. *)
Theorem rest_read_failure_text :
  forall (D : Type) (b : string) (j : option CookieJar.t) (u p : option string)
         (what what' : string) (req : Request) (up : Upstream D) (r : Response D),
    up [] req = Replied r ->
    isAuthStatus (status r) = false ->
    status r <> 200%N ->
    fst (run (Rest.delegate what (Api.guarded (Api.new b j u p) what' req)) up)
    = Throw (what +:+ ": " +:+ what' +:+ ": "
             +:+ (if (200 <=? status r)%N && (status r <? 500)%N
                  then what' +:+ ": " +:+ showN (status r)
                  else "Request failed with status code " +:+ showN (status r))).
Proof.
  intros D b j u p what what' req up r Hup Hauth Hne.
  unfold run, Rest.delegate, try_catch. rewrite guarded_run, Hup, Hauth.
  destruct (N.eqb_spec (status r) 200) as [E|_]; [contradiction|].
  destruct ((200 <=? status r)%N && (status r <? 500)%N); reflexivity.
Qed.

Lemma rest_read_failure_text_witness :
  fst (run (Rest.getAnnotation (Rest.new "http://grok" None None None) "src/a.c")
           (fun _ _ => Replied {| status := 404%N; data := tt |}))
  = Throw "Failed to get annotation: Failed to get annotation: Failed to get annotation: 404"
  /\ fst (run (Rest.getAnnotation (Rest.new "http://grok" None None None) "src/a.c")
              (fun _ _ => Replied {| status := 503%N; data := tt |}))
     = Throw "Failed to get annotation: Failed to get annotation: Request failed with status code 503".
Proof.
  split.
  - refine (rest_read_failure_text unit "http://grok" None None None
              "Failed to get annotation" "Failed to get annotation"
              {| url := "/annotation"; params := [("path", "src/a.c")] |}
              (fun _ _ => Replied {| status := 404%N; data := tt |})
              {| status := 404%N; data := tt |} eq_refl eq_refl _).
    discriminate.
  - refine (rest_read_failure_text unit "http://grok" None None None
              "Failed to get annotation" "Failed to get annotation"
              {| url := "/annotation"; params := [("path", "src/a.c")] |}
              (fun _ _ => Replied {| status := 503%N; data := tt |})
              {| status := 503%N; data := tt |} eq_refl eq_refl _).
    discriminate.
Defined.

(** [checkRequestStatus] returns the status of any answer from 200 to 499,
    401, 403 and 404 included, without treating it as a failure; it never
    returns a status outside that range, which the HTTP client refuses. *)
Theorem checkRequestStatus_range :
  forall (D : Type) (b : string) (j : option CookieJar.t) (u p : option string)
         (uuid : string) (up : Upstream D) (code : N),
    fst (run (ApiMore.checkRequestStatus (Api.new b j u p) uuid) up) = Return code
    <-> exists r, up [] {| url := "/status/" +:+ uuid; params := [] |} = Replied r
                  /\ status r = code /\ (200 <= code < 500)%N.
Proof.
  intros D b j u p uuid up code.
  unfold run, ApiMore.checkRequestStatus, try_catch, Http.bind, get, throw, ret.
  destruct (up [] _) as [r|reason].
  - rewrite api_validateStatus.
    destruct ((200 <=? status r)%N && (status r <? 500)%N) eqn:Hv; cbn [fst].
    + apply andb_true_iff in Hv as [Hlo Hhi].
      apply N.leb_le in Hlo. apply N.ltb_lt in Hhi. split.
      * intros [= <-]. exists r. repeat split; assumption.
      * intros (r' & [= <-] & <- & _). reflexivity.
    + split; [discriminate|]. intros (r' & [= <-] & <- & Hlo & Hhi).
      apply N.leb_le in Hlo. apply N.ltb_lt in Hhi. rewrite Hlo, Hhi in Hv.
      discriminate.
  - cbn [fst]. split; [discriminate|]. intros (r' & Hr & _). discriminate.
Qed.

Lemma foldl_pushRef symbol filePath hits refs :
  foldl (Rest.pushRef symbol filePath) refs hits
  = refs ++ entryReferences symbol (filePath, hits).
Proof.
  unfold entryReferences. cbn [fst snd].
  revert refs. induction hits as [|hit hits IH]; intros refs; cbn [foldl].
  - now rewrite app_nil_r.
  - rewrite IH, filter_cons. unfold Rest.pushRef.
    destruct (truthy (Api.lineNumber hit)) eqn:Hn.
    + rewrite decide_True by reflexivity. cbn [map]. now rewrite <- app_assoc.
    + rewrite decide_False by discriminate. reflexivity.
Qed.

Lemma foldl_entries_refs symbol entries refs :
  foldl (fun refs '(filePath, hits) => foldl (Rest.pushRef symbol filePath) refs hits)
        refs entries
  = refs ++ concat (map (entryReferences symbol) entries).
Proof.
  revert refs. induction entries as [|[filePath hits] entries IH]; intros refs;
    cbn [foldl map concat].
  - now rewrite app_nil_r.
  - rewrite IH, foldl_pushRef. now rewrite <- app_assoc.
Qed.

(** In rest-api mode [getCrossReferences], answered with status 200, returns
    one reference per hit record that has a non-empty line number, file by
    file and in order; unlike [search], it keeps the records whose line text
    is empty. *)
Theorem rest_getCrossReferences_flatten :
  forall (b : string) (j : option CookieJar.t) (u p : option string)
         (symbol : string) (project : option string)
         (up : Upstream Api.SearchResponse) (r : Response Api.SearchResponse),
    (forall req, up [] req = Replied r) ->
    status r = 200%N ->
    fst (run (Rest.getCrossReferences (Rest.new b j u p) symbol project) up)
    = Return (concat (map (entryReferences symbol) (Api.results (data r)))).
Proof.
  intros b j u p symbol project up r Hup Hstatus.
  unfold run, Rest.getCrossReferences, Rest.delegate, Api.search, try_catch, Http.bind.
  unfold Rest.new. cbn [Rest.apiClient]. rewrite plain_run, Hup, Hstatus.
  cbn [N.leb N.ltb N.eqb N.compare Pos.compare Pos.compare_cont Pos.eqb andb ret fst].
  now rewrite foldl_entries_refs.
Qed.

Lemma rest_getCrossReferences_flatten_witness :
  let body :=
    {| Api.time := 1%N; Api.resultCount := 2%N; Api.startDocument := 0%N;
       Api.endDocument := 1%N;
       Api.results :=
         [("/src/a.c",
           [ {| Api.line := ""; Api.lineNumber := "3"; Api.tag := "" |};
             {| Api.line := "x"; Api.lineNumber := ""; Api.tag := "" |} ])] |} in
  fst (run (Rest.getCrossReferences (Rest.new "http://grok" None None None) "x" None)
           (fun _ _ => Replied {| status := 200%N; data := body |}))
  = Return [ {| CrossReference.symbol := "x"; CrossReference.file := "/src/a.c";
               CrossReference.line := Int 3; CrossReference.type := reference |} ]
  /\ Rest.transformSearchResults body "proj" = [].
Proof.
  intros body. split; [|reflexivity].
  exact (rest_getCrossReferences_flatten "http://grok" None None None "x" None
           (fun _ _ => Replied {| status := 200%N; data := body |})
           {| status := 200%N; data := body |} (fun _ => eq_refl) eq_refl).
Defined.

(** ** The credential holder's probe *)

Lemma isAuthenticated_run {D} baseUrl cookieString (up : Upstream D) log :
  AuthCheck.isAuthenticated (Auth.new baseUrl cookieString) up log
  = (Return match up log {| url := baseUrl +:+ "/api/v1/projects"; params := [] |} with
            | Replied r => (status r =? 200)%N
            | Failed _ => false
            end,
     log ++ [ {| url := baseUrl +:+ "/api/v1/projects"; params := [] |} ]).
Proof.
  assert (Hbase : Auth.baseUrl (Auth.new baseUrl cookieString) = baseUrl)
    by (unfold Auth.new; destruct cookieString as [s|]; [destruct (truthy s)|];
        reflexivity).
  assert (Hvalid : forall status,
             validateStatus (Auth.axiosClient (Auth.new baseUrl cookieString)) status
             = true)
    by (intros status; unfold Auth.new; destruct cookieString as [s|];
        [destruct (truthy s)|]; reflexivity).
  unfold AuthCheck.isAuthenticated, try_catch, Http.bind, get, ret.
  rewrite Hbase.
  destruct (up log _) as [r|reason]; [|reflexivity]. now rewrite Hvalid.
Qed.

(** [isAuthenticated] never throws: it is [true] exactly when the probe is
    answered with status 200, and [false] on any other status or transport
    failure; it makes one request, to the projects endpoint. *)
Theorem isAuthenticated_never_raises :
  forall (D : Type) (baseUrl : string) (cookieString : option string)
         (up : Upstream D) (log : list Request),
    let req := {| url := baseUrl +:+ "/api/v1/projects"; params := [] |} in
    AuthCheck.isAuthenticated (Auth.new baseUrl cookieString) up log
    = (Return match up log req with
              | Replied r => (status r =? 200)%N
              | Failed _ => false
              end, log ++ [req]).
Proof. intros D baseUrl cookieString up log req. apply isAuthenticated_run. Qed.

(** ** Configuration and start-up *)

(** A variable set to the empty string counts as unset: the base URL is
    never empty (the default takes its place), the optional settings are
    absent or non-empty, and OAuth is on only for the exact text [true]. *)
Theorem getConfig_empty_is_unset :
  forall env : Config.Env,
    let config := Config.getConfig env in
    truthy (Config.baseUrl config) = true
    /\ Forall (fun setting : option string =>
                 setting = None \/ exists v, setting = Some v /\ truthy v = true)
              [Config.defaultProject config; Config.username config;
               Config.password config; Config.cookieString config]
    /\ (Config.useOAuth config = true <-> env "OPENGROK_USE_OAUTH" = Some "true")
    /\ (truthy_opt (env "OPENGROK_URL") = false ->
        Config.baseUrl config = "http://localhost:8080/source").
Proof.
  intros env config. subst config. unfold Config.getConfig. cbn -[String.eqb].
  assert (Hopt : forall o, Config.orUndefined o = None
                           \/ exists v, Config.orUndefined o = Some v /\ truthy v = true).
  { intros [v|]; [|now left]. unfold Config.orUndefined. cbn [truthy_opt].
    destruct (truthy v) eqn:Hv; [right; now exists v|now left]. }
  split; [|split; [|split]].
  - destruct (env "OPENGROK_URL") as [v|]; [|reflexivity].
    cbn [or_else]. destruct (truthy v) eqn:Hv; [exact Hv|reflexivity].
  - repeat (apply Forall_cons; split; [apply Hopt|]). exact (List.Forall_nil _).
  - destruct (env "OPENGROK_USE_OAUTH") as [v|]; [|split; discriminate].
    rewrite String.eqb_eq. split; [now intros ->|now intros [= ->]].
  - destruct (env "OPENGROK_URL") as [v|]; [|reflexivity].
    cbn [truthy_opt or_else]. now intros ->.
Qed.

(** What the start-up hands to the HTTP client. On the OAuth path (OAuth asked
    for, or no user name and no password) it probes the upstream once and the
    client carries the cookies of the configured cookie string and no basic
    auth, even if a user name and a password are configured; otherwise it
    makes no request and the client carries no cookie jar, and basic auth only
    when both the user name and the password are non-empty. *)
Theorem initializeClient_credentials :
  forall (D : Type) (config : Config.OpenGrokConfig) (up : Upstream D),
    let holder := Auth.new (Config.baseUrl config) (Config.cookieString config) in
    let probe :=
      {| url := Config.baseUrl config +:+ "/api/v1/projects"; params := [] |} in
    (exists client,
        run (RestServer.initializeClientAsync config) up
        = (Return client, if oauthPath config then [probe] else [])
        /\ jar (Api.client (Rest.apiClient client))
           = (if oauthPath config then Some (Auth.cookieJar holder) else None)
        /\ auth (Api.client (Rest.apiClient client))
           = (if oauthPath config then None
              else basicAuth (Config.username config) (Config.password config)))
    /\ (exists client,
        run (HtmlServer.initializeClientAsync config) up
        = (Return client, if oauthPath config then [probe] else [])
        /\ jar (Html.client client)
           = (if oauthPath config then Some (Auth.cookieJar holder) else None)
        /\ auth (Html.client client)
           = (if oauthPath config then None
              else basicAuth (Config.username config) (Config.password config))).
Proof.
  intros D config up holder probe.
  unfold run, RestServer.initializeClientAsync, HtmlServer.initializeClientAsync,
    HtmlServer.initializeClientWith, try_catch, Http.bind.
  fold (oauthPath config). destruct (oauthPath config).
  - rewrite isAuthenticated_run. cbn [ret].
    split; eexists; (split; [reflexivity|]); split; reflexivity.
  - cbn [ret].
    split; eexists; (split; [reflexivity|]); (split; [reflexivity|]);
      cbn; destruct (Config.username config), (Config.password config); reflexivity.
Qed.

(** ** The tool handler *)

Section ToolHandler.

Variable stringifyResults : list SearchResult.t -> string.
Variable stringifyRefs : list CrossReference.t -> string.
Variable stringifyProjects : list string -> string.

Let callTool := HtmlServer.callTool stringifyResults stringifyRefs stringifyProjects.

Lemma respond_run {A} (op : Net string A) (render : A -> string) up log :
  try_catch
    (let* a := op in
     ret {| HtmlServer.text := render a; HtmlServer.isError := false |})
    (fun message => ret (toolError message)) up log
  = match op up log with
    | (Return a, log') =>
        (Return {| HtmlServer.text := render a; HtmlServer.isError := false |}, log')
    | (Throw message, log') => (Return (toolError message), log')
    end.
Proof.
  unfold try_catch, Http.bind, ret. now destruct (op up log) as [[a|message] log'].
Qed.

(** The handler never throws: whatever the tool name, the arguments and the
    upstream, it returns a result, and a result flagged as an error is the
    text [Error: ] followed by the message of the failure. *)
Theorem callTool_never_throws :
  forall (openGrokClient : Html.OpenGrokClient) (config : Config.OpenGrokConfig)
         (name : string) (args : HtmlServer.ToolArgs) (up : Upstream string),
    exists result,
      fst (run (callTool openGrokClient config name args) up) = Return result
      /\ (HtmlServer.isError result = true -> exists message, result = toolError message).
Proof.
  intros openGrokClient config name args up.
  unfold run, callTool, HtmlServer.callTool. fold toolError.
  assert (Hstep : forall A (op : Net string A) (render : A -> string),
             exists result,
               fst (try_catch
                      (let* a := op in
                       ret {| HtmlServer.text := render a; HtmlServer.isError := false |})
                      (fun message => ret (toolError message)) up []) = Return result
               /\ (HtmlServer.isError result = true ->
                   exists message, result = toolError message)).
  { intros A op render. rewrite respond_run.
    destruct (op up []) as [[a|message] log']; eexists; (split; [reflexivity|]).
    - discriminate.
    - intros _. now exists message. }
  assert (Hthrow : forall message,
             exists result,
               fst (try_catch (throw message) (fun message => ret (toolError message)) up [])
               = Return result
               /\ (HtmlServer.isError result = true ->
                   exists message, result = toolError message)).
  { intros message. eexists. split; [reflexivity|]. intros _. now exists message. }
  destruct (String.eqb name "opengrok_search").
  { destruct (negb (truthy_opt (HtmlServer.project args))
              || String.eqb (trim (or_else (HtmlServer.project args) "")) "");
      [apply Hthrow|apply Hstep]. }
  destruct (String.eqb name "opengrok_get_file");
    [exact (Hstep _ _ FileContent.content)|].
  destruct (String.eqb name "opengrok_xref"); [apply Hstep|].
  destruct (String.eqb name "opengrok_list_projects"); [apply Hstep|apply Hthrow].
Qed.

(** A search without a usable project (missing, empty or blank) is refused
    by the handler itself, before any request is made. *)
Theorem callTool_search_needs_project :
  forall (openGrokClient : Html.OpenGrokClient) (config : Config.OpenGrokConfig)
         (args : HtmlServer.ToolArgs) (up : Upstream string),
    blankProject (HtmlServer.project args) = true ->
    run (callTool openGrokClient config "opengrok_search" args) up
    = (Return (toolError "Project parameter is required. Use opengrok_list_projects to see available projects."),
       []).
Proof.
  intros openGrokClient config args up Hblank.
  unfold run, callTool, HtmlServer.callTool. cbn [String.eqb Ascii.eqb Bool.eqb].
  unfold blankProject in Hblank. cbv beta match zeta. rewrite Hblank. reflexivity.
Qed.

(** A tool name that the server does not offer gives an error result that
    names it, and no request. *)
Theorem callTool_unknown_tool :
  forall (openGrokClient : Html.OpenGrokClient) (config : Config.OpenGrokConfig)
         (name : string) (args : HtmlServer.ToolArgs) (up : Upstream string),
    ~ In name ["opengrok_search"; "opengrok_get_file"; "opengrok_xref";
               "opengrok_list_projects"] ->
    run (callTool openGrokClient config name args) up
    = (Return (toolError ("Unknown tool: " +:+ name)), []).
Proof.
  intros openGrokClient config name args up Hname.
  unfold run, callTool, HtmlServer.callTool.
  destruct (String.eqb_spec name "opengrok_search") as [->|_];
    [exfalso; apply Hname; cbn; tauto|].
  destruct (String.eqb_spec name "opengrok_get_file") as [->|_];
    [exfalso; apply Hname; cbn; tauto|].
  destruct (String.eqb_spec name "opengrok_xref") as [->|_];
    [exfalso; apply Hname; cbn; tauto|].
  destruct (String.eqb_spec name "opengrok_list_projects") as [->|_];
    [exfalso; apply Hname; cbn; tauto|].
  reflexivity.
Qed.



(** The file tool returns the extracted text itself, and retries with the
    configured default project when the call names none: answered 404 for the
    bare path and 200 for the path under the default project, it returns the
    content after exactly these two requests. *)
Theorem callTool_get_file_default_project :
  forall (b : string) (j : option CookieJar.t) (u p : option string)
         (config : Config.OpenGrokConfig) (args : HtmlServer.ToolArgs)
         (up : Upstream string) (fallback stale html : string),
    truthy_opt (HtmlServer.project args) = false ->
    Config.defaultProject config = Some fallback ->
    truthy fallback = true ->
    let bare := {| url := "/xref/" +:+ HtmlServer.path args; params := [] |} in
    let prefixed :=
      {| url := "/xref/" +:+ fallback +:+ "/" +:+ HtmlServer.path args; params := [] |} in
    up [] bare = Replied {| status := 404%N; data := stale |} ->
    up [bare] prefixed = Replied {| status := 200%N; data := html |} ->
    run (callTool (Html.new b j u p) config "opengrok_get_file" args) up
    = (Return {| HtmlServer.text := Html.extractFileContent html;
                 HtmlServer.isError := false |},
       [bare; prefixed]).
Proof.
  intros b j u p config args up fallback stale html Hnone Hdefault Hfallback bare
         prefixed Hfirst Hsecond.
  unfold run, callTool, HtmlServer.callTool. fold toolError.
  cbn [String.eqb Ascii.eqb Bool.eqb]. cbv beta match zeta.
  rewrite (respond_run _ FileContent.content).
  unfold HtmlServer.orOption. rewrite Hnone, Hdefault.
  unfold Html.getFileContent, try_catch, Http.bind, get, throw, ret.
  fold bare. rewrite Hfirst, html_validateStatus. cbn [status truthy_opt or_else].
  rewrite Hfallback. cbn [N.eqb Pos.eqb andb].
  fold prefixed. change ([] ++ [bare]) with [bare].
  rewrite Hsecond, html_validateStatus. reflexivity.
Qed.

End ToolHandler.

Lemma callTool_search_needs_project_witness :
  run (HtmlServer.callTool (fun _ => "[]") (fun _ => "[]") (fun _ => "[]")
         (Html.new "http://grok" None None None)
         (Config.getConfig (fun _ => None)) "opengrok_search"
         {| HtmlServer.query := "main"; HtmlServer.project := Some "   ";
            HtmlServer.searchType := None; HtmlServer.language := None;
            HtmlServer.maxResults := None; HtmlServer.path := "";
            HtmlServer.symbol := "" |})
      (fun _ _ => Replied {| status := 200%N; data := "" |})
  = (Return (toolError "Project parameter is required. Use opengrok_list_projects to see available projects."),
     []).
Proof. apply callTool_search_needs_project. reflexivity. Defined.

Lemma callTool_unknown_tool_witness :
  run (HtmlServer.callTool (fun _ => "[]") (fun _ => "[]") (fun _ => "[]")
         (Html.new "http://grok" None None None)
         (Config.getConfig (fun _ => None)) "opengrok_ping"
         {| HtmlServer.query := ""; HtmlServer.project := None;
            HtmlServer.searchType := None; HtmlServer.language := None;
            HtmlServer.maxResults := None; HtmlServer.path := "";
            HtmlServer.symbol := "" |})
      (fun _ _ => Replied {| status := 200%N; data := "" |})
  = (Return (toolError "Unknown tool: opengrok_ping"), []).
Proof.
  apply callTool_unknown_tool. cbn [In].
  intros [H|[H|[H|[H|[]]]]]; discriminate H.
Defined.


Lemma callTool_get_file_default_project_witness :
  run (HtmlServer.callTool (fun _ => "[]") (fun _ => "[]") (fun _ => "[]")
         (Html.new "http://grok" None None None)
         (Config.getConfig
            (fun v => if String.eqb v "OPENGROK_DEFAULT_PROJECT" then Some "proj" else None))
         "opengrok_get_file"
         {| HtmlServer.query := ""; HtmlServer.project := None;
            HtmlServer.searchType := None; HtmlServer.language := None;
            HtmlServer.maxResults := None; HtmlServer.path := "src/a.c";
            HtmlServer.symbol := "" |})
      (fun _ req =>
         if String.eqb (url req) "/xref/src/a.c"
         then Replied {| status := 404%N; data := "not found" |}
         else Replied {| status := 200%N; data := "<pre>int x;</pre>" |})
  = (Return {| HtmlServer.text := "int x;"; HtmlServer.isError := false |},
     [ {| url := "/xref/src/a.c"; params := [] |};
       {| url := "/xref/proj/src/a.c"; params := [] |} ]).
Proof.
  exact (callTool_get_file_default_project
           (fun _ => "[]") (fun _ => "[]") (fun _ => "[]") "http://grok" None None None
           (Config.getConfig
              (fun v => if String.eqb v "OPENGROK_DEFAULT_PROJECT" then Some "proj"
                        else None))
           {| HtmlServer.query := ""; HtmlServer.project := None;
              HtmlServer.searchType := None; HtmlServer.language := None;
              HtmlServer.maxResults := None; HtmlServer.path := "src/a.c";
              HtmlServer.symbol := "" |}
           (fun _ req =>
              if String.eqb (url req) "/xref/src/a.c"
              then Replied {| status := 404%N; data := "not found" |}
              else Replied {| status := 200%N; data := "<pre>int x;</pre>" |})
           "proj" "not found" "<pre>int x;</pre>"
           eq_refl eq_refl eq_refl eq_refl eq_refl).
Defined.

(** ** The tool handler over the rest-api client *)

Section RestToolHandler.

Variable J : Type.
Variable stringifyResults : list SearchResult.t -> string.
Variable stringifyRefs : list CrossReference.t -> string.
Variable stringifyJson : J -> string.
Variable stringifySuggestions : list J -> string.

Let restTool :=
  RestTools.callTool J stringifyResults stringifyRefs stringifyJson stringifySuggestions.

Lemma answer_total {D A} (pick : RestTools.Upstreams J -> Upstream D) (call : Net D A)
    (render : A -> string) ups log :
  exists result,
    fst (RestTools.answer J pick call render ups log) = Return result
    /\ (HtmlServer.isError result = true -> exists message, result = toolError message).
Proof.
  unfold RestTools.answer.
  destruct (call (pick ups) log) as [[a|message] log']; eexists;
    (split; [reflexivity|]); [discriminate|].
  intros _. now exists message.
Qed.

(** The handler never throws: for every tool name, arguments and upstream it
    returns a result, and a result flagged as an error is the text [Error: ]
    followed by the message of the failure. *)
Theorem rest_callTool_never_throws :
  forall (openGrokClient : Rest.OpenGrokClient) (config : Config.OpenGrokConfig)
         (name : string) (args : RestTools.ToolArgs) (ups : RestTools.Upstreams J),
    exists result,
      fst (restTool openGrokClient config name args ups []) = Return result
      /\ (HtmlServer.isError result = true -> exists message, result = toolError message).
Proof.
  intros openGrokClient config name args ups.
  assert (Hrefuse : forall message,
             exists result,
               fst (RestTools.refuse J message ups []) = Return result
               /\ (HtmlServer.isError result = true ->
                   exists message, result = toolError message)).
  { intros message. eexists. split; [reflexivity|]. intros _. now exists message. }
  unfold restTool, RestTools.callTool.
  repeat match goal with
         | |- context [if String.eqb name ?tool then _ else _] =>
             destruct (String.eqb name tool); [try apply answer_total|]
         end; try apply Hrefuse.
  destruct (negb (truthy_opt (RestTools.project args))
            || String.eqb (trim (or_else (RestTools.project args) "")) "");
    [apply Hrefuse|apply answer_total].
Qed.

Lemma rest_ping_run {D} b j u p (up : Upstream D) log :
  Rest.ping (Rest.new b j u p) up log
  = (Return match up log {| url := "/system/ping"; params := [] |} with
            | Replied r => (status r =? 200)%N
            | Failed _ => false
            end,
     log ++ [ {| url := "/system/ping"; params := [] |} ]).
Proof.
  unfold Rest.ping, Api.ping, try_catch, Http.bind, get, ret.
  destruct (up log _) as [r|reason]; [|reflexivity].
  unfold Rest.new. cbn [Rest.apiClient]. rewrite api_validateStatus.
  destruct ((200 <=? status r)%N && (status r <? 500)%N) eqn:Hv; [reflexivity|].
  f_equal. f_equal.
  destruct (N.eqb_spec (status r) 200) as [E|]; [|reflexivity].
  rewrite E in Hv. discriminate.
Qed.

(** The ping tool never reports an error: after one request it says that the
    server is alive when the answer has status 200, and that it is not
    responding on any other status or transport failure. *)
Theorem rest_callTool_ping :
  forall (b : string) (j : option CookieJar.t) (u p : option string)
         (config : Config.OpenGrokConfig) (args : RestTools.ToolArgs)
         (ups : RestTools.Upstreams J),
    let req := {| url := "/system/ping"; params := [] |} in
    let alive :=
      match RestTools.jsonUpstream J ups [] req with
      | Replied r => (status r =? 200)%N
      | Failed _ => false
      end in
    restTool (Rest.new b j u p) config "opengrok_ping" args ups []
    = (Return {| HtmlServer.text :=
                   "OpenGrok server is " +:+ (if alive then "alive" else "not responding");
                 HtmlServer.isError := false |},
       [req]).
Proof.
  intros b j u p config args ups req alive.
  unfold restTool, RestTools.callTool. cbn [String.eqb Ascii.eqb Bool.eqb].
  cbv beta match zeta. unfold RestTools.answer. now rewrite rest_ping_run.
Qed.

(** The handler refuses, without any request, a search whose project is
    missing, empty or blank, and a tool name that the server does not
    offer. *)
Theorem rest_callTool_refusals :
  forall (openGrokClient : Rest.OpenGrokClient) (config : Config.OpenGrokConfig)
         (name : string) (args : RestTools.ToolArgs) (ups : RestTools.Upstreams J),
    (blankProject (RestTools.project args) = true ->
     restTool openGrokClient config "opengrok_search" args ups []
     = (Return (toolError "Project parameter is required. Use opengrok_list_projects to see available projects."),
        []))
    /\ (~ In name restToolNames ->
        restTool openGrokClient config name args ups []
        = (Return (toolError ("Unknown tool: " +:+ name)), [])).
Proof.
  intros openGrokClient config name args ups. split.
  - intros Hblank. unfold restTool, RestTools.callTool.
    cbn [String.eqb Ascii.eqb Bool.eqb]. cbv beta match zeta.
    unfold blankProject in Hblank. now rewrite Hblank.
  - intros Hname. unfold restTool, RestTools.callTool.
    repeat match goal with
           | |- context [if String.eqb name ?tool then _ else _] =>
               destruct (String.eqb_spec name tool) as [->|_];
               [exfalso; apply Hname; unfold restToolNames; cbn [In]; tauto|]
           end.
    reflexivity.
Qed.

End RestToolHandler.

Lemma rest_callTool_refusals_witness :
  let ups : RestTools.Upstreams unit :=
    {| RestTools.searchUpstream := fun _ _ => Failed "unreachable";
       RestTools.textUpstream := fun _ _ => Failed "unreachable";
       RestTools.jsonUpstream := fun _ _ => Failed "unreachable";
       RestTools.suggestUpstream := fun _ _ => Failed "unreachable" |} in
  let args :=
    {| RestTools.query := "main"; RestTools.project := Some " ";
       RestTools.searchType := None; RestTools.language := None;
       RestTools.maxResults := None; RestTools.path := "";
       RestTools.withFiles := None; RestTools.start := None; RestTools.max := None;
       RestTools.symbol := ""; RestTools.field := None |} in
  let tool :=
    RestTools.callTool unit (fun _ => "[]") (fun _ => "[]") (fun _ => "{}")
      (fun _ => "[]") (Rest.new "http://grok" None None None)
      (Config.getConfig (fun _ => None)) in
  tool "opengrok_search" args ups []
  = (Return (toolError "Project parameter is required. Use opengrok_list_projects to see available projects."),
     [])
  /\ tool "opengrok_reindex" args ups []
     = (Return (toolError "Unknown tool: opengrok_reindex"), []).
Proof.
  intros ups args tool.
  destruct (rest_callTool_refusals unit (fun _ => "[]") (fun _ => "[]") (fun _ => "{}")
              (fun _ => "[]") (Rest.new "http://grok" None None None)
              (Config.getConfig (fun _ => None)) "opengrok_reindex" args ups)
    as [Hblank Hunknown].
  split; [apply Hblank; reflexivity|apply Hunknown].
  unfold restToolNames. cbn [In].
  repeat (intros [H|H]; [discriminate H|revert H]). intros [].
Defined.
